(** * Verification of tools/create_dev_icons.py

    A shallow embedding of the development-icon generator: the per-icon
    operation [create_dev_icon] and the batch run [main], on top of
    - an exact model of the Python float arithmetic used for the geometry
      (IEEE binary64 through the Stdlib [SpecFloat] specification),
    - a pixel-level model of the Pillow primitives the script calls
      ([Image.convert], [Image.new], [ImageDraw.polygon],
      [Image.alpha_composite], [ImageDraw.textbbox], [ImageDraw.text]),
    - a small Python runtime monad over a file system (a [gmap] from
      paths to entries), the console, exceptions and [sys.exit]. *)

From Stdlib Require Import ZArith Lia.
From Stdlib Require Import Floats.SpecFloat.
From stdpp Require Import base gmap strings list.

Open Scope Z_scope.

(* ===================================================================== *)
(** ** Python floats (binary64) *)
(* ===================================================================== *)

Module PyFloat.

Definition prec : Z := 53.
Definition emax : Z := 1024.

Abbreviation float := spec_float.

(** [float(n)] for a Python int [n]: correctly rounded. *)
Definition of_int (n : Z) : float := binary_normalize prec emax n 0 false.

(** Float multiplication [x * y]. *)
Definition mul (x y : float) : float := SFmul prec emax x y.

(** The literal [0.6]: the double nearest to 3/5. *)
Definition lit_0_6 : float := SFdiv prec emax (of_int 3) (of_int 5).

(** The literal [0.25]: exactly 1/4. *)
Definition lit_0_25 : float := SFdiv prec emax (of_int 1) (of_int 4).

(** [int(x)]: truncation toward zero; [None] where Python raises
    (OverflowError on infinities, ValueError on NaN). *)
Definition to_int (x : float) : option Z :=
  match x with
  | S754_zero _ => Some 0
  | S754_infinity _ | S754_nan => None
  | S754_finite s m e =>
      let q := if Z.leb 0 e then Z.shiftl (Zpos m) e
               else Z.shiftr (Zpos m) (- e) in
      Some (if s then - q else q)
  end.

(** [int(n * c)] for a Python int [n] and a float constant [c]. *)
Definition int_mul (n : Z) (c : float) : option Z := to_int (mul (of_int n) c).

End PyFloat.

(* ===================================================================== *)
(** ** Pillow images *)
(* ===================================================================== *)

(** An RGBA pixel (r, g, b, a), each channel in 0..255. *)
Definition rgba : Type := Z * Z * Z * Z.

(** Image modes of the source file.  The [transparency] of modes L and
    RGB is [info['transparency']], the colour key a PNG declares in a tRNS
    chunk.  [Other] stands for the remaining Pillow modes: its conversion
    to RGBA is the library's conversion table entry, [None] where Pillow
    has no such conversion and [convert('RGBA')] raises ValueError. *)
Inductive Mode : Type :=
| L (transparency : option Z)
| LA
| RGB (transparency : option (Z * Z * Z))
| RGBA
| P (palette : Z -> rgba)
| Other (name : string) (to_rgba : option (list Z -> rgba)).

(** An image as decoded from a file: mode, size and per-pixel channel
    values ([px x y] for 0 <= x < width, 0 <= y < height). *)
Record image : Type := mk_image {
  im_mode : Mode;
  im_width : Z;
  im_height : Z;
  im_px : Z -> Z -> list Z
}.

(** An image in mode RGBA, the working representation of the script. *)
Record rgba_image : Type := mk_rgba {
  width : Z;
  height : Z;
  px : Z -> Z -> rgba
}.

Definition chan (l : list Z) (i : nat) : Z := nth i l 0.

(** Per-pixel conversion to RGBA, following Pillow's converters; with a
    transparency key ([convert_transparent], [rgbT2rgba]) the pixels of
    the key colour keep their colour and get alpha 0. *)
Definition pixel_to_rgba (m : Mode) : option (list Z -> rgba) :=
  match m with
  | L t =>
      Some (fun v => (chan v 0, chan v 0, chan v 0,
                      match t with
                      | Some k => if Z.eqb (chan v 0) k then 0 else 255
                      | None => 255
                      end))
  | LA => Some (fun v => (chan v 0, chan v 0, chan v 0, chan v 1))
  | RGB t =>
      Some (fun v => (chan v 0, chan v 1, chan v 2,
                      match t with
                      | Some (kr, kg, kb) =>
                          if Z.eqb (chan v 0) kr && Z.eqb (chan v 1) kg
                             && Z.eqb (chan v 2) kb then 0 else 255
                      | None => 255
                      end))
  | RGBA => Some (fun v => (chan v 0, chan v 1, chan v 2, chan v 3))
  | P pal => Some (fun v => pal (chan v 0))
  | Other _ c => c
  end.

(** [img.convert('RGBA')]; [None] where Pillow raises. *)
Definition convert_rgba (img : image) : option rgba_image :=
  match pixel_to_rgba (im_mode img) with
  | Some f => Some (mk_rgba (im_width img) (im_height img)
                            (fun x y => f (im_px img x y)))
  | None => None
  end.

Definition rgba_list (c : rgba) : list Z :=
  let '(r, g, b, a) := c in [r; g; b; a].

(** The RGBA image as stored by [img.save(...)] to a PNG file
    (colour type 6: RGB with alpha). *)
Definition to_saved (img : rgba_image) : image :=
  mk_image RGBA (width img) (height img)
    (fun x y => rgba_list (px img x y)).

(** [Image.new('RGBA', size, color)]. *)
Definition image_new (w h : Z) (c : rgba) : rgba_image :=
  mk_rgba w h (fun _ _ => c).

(** Point-in-closed-triangle test by the signs of the three cross
    products (the pixel at integer coordinates (x, y)). *)
Definition cross (a b p : Z * Z) : Z :=
  (fst b - fst a) * (snd p - snd a) - (snd b - snd a) * (fst p - fst a).

(** [p] on the closed segment [a]-[b]. *)
Definition on_segment (a b p : Z * Z) : bool :=
  Z.eqb (cross a b p) 0
  && Z.leb (Z.min (fst a) (fst b)) (fst p) && Z.leb (fst p) (Z.max (fst a) (fst b))
  && Z.leb (Z.min (snd a) (snd b)) (snd p) && Z.leb (snd p) (Z.max (snd a) (snd b)).

(** A degenerate (flat) triangle covers its outline segments only. *)
Definition in_triangle (a b c p : Z * Z) : bool :=
  if Z.eqb (cross a b c) 0 then
    on_segment a b p || on_segment b c p || on_segment c a p
  else
    let d1 := cross a b p in
    let d2 := cross b c p in
    let d3 := cross c a p in
    (Z.leb 0 d1 && Z.leb 0 d2 && Z.leb 0 d3)
    || (Z.leb d1 0 && Z.leb d2 0 && Z.leb d3 0).

(** [ImageDraw.Draw(im).polygon([a, b, c], fill=c)]: the pixels of the
    closed triangle take the fill colour, the others are left as they are. *)
Definition polygon (pts : list (Z * Z)) (fill : rgba) (im : rgba_image)
  : rgba_image :=
  match pts with
  | [a; b; c] =>
      mk_rgba (width im) (height im)
        (fun x y => if in_triangle a b c (x, y) then fill else px im x y)
  | _ => im
  end.

(** Pillow's integer division by 255 helper [SHIFTFORDIV255]. *)
Definition shiftfordiv255 (a : Z) : Z := Z.shiftr (Z.shiftr a 8 + a) 8.

Definition PRECISION_BITS : Z := 7.

(** One pixel of [Image.alpha_composite(dst, src)] (libImaging
    AlphaComposite.c): [src] over [dst]. *)
Definition composite_px (dst src : rgba) : rgba :=
  let '(dr, dg, db, da) := dst in
  let '(sr, sg, sb, sa) := src in
  if Z.eqb sa 0 then dst
  else
    let blend := da * (255 - sa) in
    let outa255 := sa * 255 + blend in
    let coef1 := sa * 255 * 255 * Z.shiftl 1 PRECISION_BITS / outa255 in
    let coef2 := 255 * Z.shiftl 1 PRECISION_BITS - coef1 in
    let ch s d :=
      Z.shiftr (shiftfordiv255 (s * coef1 + d * coef2
                                + Z.shiftl 128 PRECISION_BITS))
               PRECISION_BITS in
    (ch sr dr, ch sg dg, ch sb db, shiftfordiv255 (outa255 + 128)).

(** [Image.alpha_composite(im1, im2)]; [None] where Pillow raises
    ValueError (images of different sizes). *)
Definition alpha_composite (im1 im2 : rgba_image) : option rgba_image :=
  if Z.eqb (width im1) (width im2) && Z.eqb (height im1) (height im2) then
    Some (mk_rgba (width im1) (height im1)
                  (fun x y => composite_px (px im1 x y) (px im2 x y)))
  else None.

(** A font at a given size, as far as the script uses it: the bounding
    box [(left, top, right, bottom)] of a text drawn at (0, 0), as
    [ImageDraw.textbbox((0, 0), text, font)] returns it, and the coverage
    mask (0..255) of the text relative to the drawing origin. *)
Record Font : Type := mk_font {
  bbox0 : string -> Z * Z * Z * Z;
  mask : string -> Z -> Z -> Z
}.

(** [draw.textbbox((x, y), text, font=font)]. *)
Definition textbbox (xy : Z * Z) (text : string) (font : Font) : Z * Z * Z * Z :=
  let '(l, t, r, b) := bbox0 font text in
  (l + fst xy, t + snd xy, r + fst xy, b + snd xy).

(** Pillow's rounded division by 255 ([DIV255]) and [BLEND]. *)
Definition div255 (a : Z) : Z :=
  let tmp := a + 128 in Z.shiftr (Z.shiftr tmp 8 + tmp) 8.

Definition blend (m in1 in2 : Z) : Z := div255 (in1 * (255 - m) + in2 * m).

(** One pixel of [draw.text] with ink [ink] where the mask is [m]: a
    pixel the glyphs do not cover is not touched. *)
Definition text_px (m : Z) (ink dst : rgba) : rgba :=
  if Z.eqb m 0 then dst
  else
    let '(ir, ig, ib, ia) := ink in
    let '(dr, dg, db, da) := dst in
    (blend m dr ir, blend m dg ig, blend m db ib, blend m da ia).

(** [draw.text((x, y), text, fill=ink, font=font)] on an RGBA image. *)
Definition draw_text (xy : Z * Z) (text : string) (ink : rgba) (font : Font)
  (im : rgba_image) : rgba_image :=
  mk_rgba (width im) (height im)
    (fun i j => text_px (mask font text (i - fst xy) (j - snd xy)) ink (px im i j)).

(* ===================================================================== *)
(** ** File system, console and the Python runtime *)
(* ===================================================================== *)

(** Absolute paths as lists of components; [[]] is the root "/". *)
Abbreviation path := (list string).

(** [os.path.join(p, name)] for a single component [name]. *)
Definition join (p : path) (name : string) : path := p ++ [name].

(** [os.path.relpath(p, root)] for a path [p] below [root]. *)
Definition relpath (p root : path) : path := drop (length root) p.

(** What a regular file holds: an image Pillow can decode, a TrueType
    font file (a face, giving a [Font] at each size), or other bytes. *)
Inductive content : Type :=
| CImage (img : image)
| CFont (face : Z -> Font)
| CBytes.

Inductive entry : Type :=
| EDir
| EFile (c : content).

(** Python exceptions raised by the operations the script uses. *)
Inductive exc : Type :=
| FileNotFoundError (p : path)
| IsADirectoryError (p : path)
| NotADirectoryError (p : path)
| FileExistsError (p : path)
| UnidentifiedImageError (p : path)
| OverflowError
| ValueError (msg : string)
| OSError (msg : string).

(** [str(e)]. *)
Definition str_exc (e : exc) : string :=
  match e with
  | FileNotFoundError _ => "[Errno 2] No such file or directory"
  | IsADirectoryError _ => "[Errno 21] Is a directory"
  | NotADirectoryError _ => "[Errno 20] Not a directory"
  | FileExistsError _ => "[Errno 17] File exists"
  | UnidentifiedImageError _ => "cannot identify image file"
  | OverflowError => "cannot convert float infinity to integer"
  | ValueError m => m
  | OSError m => m
  end.

(** [isinstance(e, OSError)] (IOError is OSError; PIL's
    UnidentifiedImageError derives from OSError). *)
Definition is_oserror (e : exc) : bool :=
  match e with
  | ValueError _ | OverflowError => false
  | _ => true
  end.

(** The lines the script prints. *)
Inductive msg : Type :=
| MsgRule                                  (* "=" * 60 *)
| MsgTitle                                 (* the banner title *)
| MsgBlank                                 (* print() *)
| MsgNoSrcDir (p : path)                   (* "错误: 源目录不存在: {src_dir}" *)
| MsgDestDir (p : path)                    (* "目标目录: {relpath}" *)
| MsgCreated (p : path)                    (* "✓ 创建: {relpath}" *)
| MsgFontWarning                           (* "警告: 无法加载系统字体..." *)
| MsgSkip (icon_name : string)             (* "⚠ 跳过: {icon_name} (文件不存在)" *)
| MsgError (icon_name : string) (text : string) (* "✗ 错误: {icon_name} - {str(e)}" *)
| MsgDone (success : Z) (total : Z).       (* "完成! 成功生成 {n}/{len(icons)} ..." *)

(** The state the script runs in: the file system, the console output so
    far, and the font [ImageFont.load_default()] returns. *)
Record world : Type := mk_world {
  fs : gmap path entry;
  out : list msg;
  default_font : Font
}.

Definition path_lookup (m : gmap path entry) (p : path) : option entry :=
  match p with
  | [] => Some EDir
  | _ => m !! p
  end.

Inductive outcome (A : Type) : Type :=
| Ret (a : A)
| Raise (e : exc)
| Exit (code : Z).
Arguments Ret {A} a.
Arguments Raise {A} e.
Arguments Exit {A} code.

(** The Python runtime monad: state passing with exceptions and exit. *)
Definition Py (A : Type) : Type := world -> world * outcome A.

Definition ret {A} (a : A) : Py A := fun w => (w, Ret a).

Definition bind {A B} (m : Py A) (f : A -> Py B) : Py B :=
  fun w =>
    match m w with
    | (w', Ret a) => f a w'
    | (w', Raise e) => (w', Raise e)
    | (w', Exit n) => (w', Exit n)
    end.

Notation "'let!' x ':=' m 'in' k" := (bind m (fun x => k))
  (at level 200, x name, m at level 100, k at level 200).

Definition raise {A} (e : exc) : Py A := fun w => (w, Raise e).

(** [try: m except Exception as e: h(e)] ([SystemExit] is not caught). *)
Definition try_except {A} (m : Py A) (h : exc -> Py A) : Py A :=
  fun w =>
    match m w with
    | (w', Raise e) => h e w'
    | r => r
    end.

Definition sys_exit {A} (code : Z) : Py A := fun w => (w, Exit code).

Definition print (l : msg) : Py unit :=
  fun w => (mk_world (fs w) (out w ++ [l]) (default_font w), Ret tt).

(** An operation that raises [e] where its model returns [None]. *)
Definition of_option {A} (o : option A) (e : exc) : Py A :=
  match o with
  | Some a => ret a
  | None => raise e
  end.

Definition write_entry (p : path) (en : entry) : Py unit :=
  fun w => (mk_world (<[p := en]> (fs w)) (out w) (default_font w), Ret tt).

Definition os_path_exists (p : path) : Py bool :=
  fun w => (w, Ret (bool_decide (is_Some (path_lookup (fs w) p)))).

Definition os_path_isdir (p : path) : Py bool :=
  fun w => (w, Ret (match path_lookup (fs w) p with Some EDir => true | _ => false end)).

(** [os.mkdir(p)]. *)
Definition os_mkdir (p : path) : Py unit :=
  fun w =>
    match path_lookup (fs w) p with
    | Some _ => raise (FileExistsError p) w
    | None =>
        match path_lookup (fs w) (removelast p) with
        | Some EDir => write_entry p EDir w
        | Some (EFile _) => raise (NotADirectoryError p) w
        | None => raise (FileNotFoundError p) w
        end
    end.

(** [os.makedirs(name, exist_ok)], on the reversed list of components of
    [name] (so that [tail :: rhead] is [os.path.split(name)]):
<<
    head, tail = path.split(name)
    if head and tail and not path.exists(head):
        try:
            makedirs(head, exist_ok=exist_ok)
        except FileExistsError:
            pass
    try:
        mkdir(name, mode)
    except OSError:
        if not exist_ok or not path.isdir(name):
            raise
>> *)
Fixpoint makedirs_rev (rname : list string) (exist_ok : bool) : Py unit :=
  let name := rev rname in
  let! _ :=
    match rname with
    | [] => ret tt
    | _ :: rhead =>
        let! e := os_path_exists (rev rhead) in
        if e then ret tt
        else try_except (makedirs_rev rhead exist_ok)
               (fun ex => match ex with FileExistsError _ => ret tt | _ => raise ex end)
    end in
  try_except (os_mkdir name)
    (fun ex => let! d := os_path_isdir name in
               if exist_ok && d then ret tt else raise ex).

Definition os_makedirs (name : path) (exist_ok : bool) : Py unit :=
  makedirs_rev (rev name) exist_ok.

(* ===================================================================== *)
(** ** Pillow file operations *)
(* ===================================================================== *)

(** [Image.open(p)]. *)
Definition image_open (p : path) : Py image :=
  fun w =>
    match path_lookup (fs w) p with
    | None => raise (FileNotFoundError p) w
    | Some EDir => raise (IsADirectoryError p) w
    | Some (EFile (CImage img)) => ret img w
    | Some (EFile _) => raise (UnidentifiedImageError p) w
    end.

(** [img.save(p)]: the format is inferred from the extension (".png" for
    every destination of the script); the file is created or replaced. *)
Definition image_save (p : path) (img : rgba_image) : Py unit :=
  fun w =>
    match path_lookup (fs w) p with
    | Some EDir => raise (IsADirectoryError p) w
    | _ =>
        match path_lookup (fs w) (removelast p) with
        | Some EDir => write_entry p (EFile (CImage (to_saved img))) w
        | Some (EFile _) => raise (NotADirectoryError p) w
        | None => raise (FileNotFoundError p) w
        end
    end.

(** [ImageFont.truetype(p, size)]: raises OSError unless [p] is a font
    file. *)
Definition truetype (p : path) (size : Z) : Py Font :=
  fun w =>
    match path_lookup (fs w) p with
    | Some (EFile (CFont face)) => ret (face size) w
    | _ => raise (OSError "cannot open resource") w
    end.

(** [ImageFont.load_default()]. *)
Definition load_default : Py Font := fun w => ret (default_font w) w.

(* ===================================================================== *)
(** ** tools/create_dev_icons.py *)
(* ===================================================================== *)

(** [src_dir] and [dest_dir], below the project root. *)
Definition src_dir (project_root : path) : path :=
  project_root ++ ["chrome-extension-wxt"; "public"].

Definition dest_dir (project_root : path) : path :=
  project_root ++ ["chrome-extension-wxt"; "public"; "dev"].

Definition icons : list string :=
  ["icon-16.png"; "icon.png"; "icon-48.png"; "icon-128.png"].

Definition font_dejavu : path :=
  ["usr"; "share"; "fonts"; "truetype"; "dejavu"; "DejaVuSans-Bold.ttf"].
(** "C:/Windows/Fonts/arialbd.ttf" (on a POSIX system a relative path;
    the model resolves it from "/"). *)
Definition font_arial : path := ["C:"; "Windows"; "Fonts"; "arialbd.ttf"].
Definition font_helvetica : path :=
  ["System"; "Library"; "Fonts"; "Helvetica.ttc"].

Definition crimson : rgba := (220, 20, 60, 200).
Definition white : rgba := (255, 255, 255, 255).

(** [triangle_size = int(width * 0.6)]. *)
Definition triangle_size (width : Z) : option Z :=
  PyFloat.int_mul width PyFloat.lit_0_6.

(** The vertex list [triangle]. *)
Definition triangle (width height tsize : Z) : list (Z * Z) :=
  [(width, height); (width - tsize, height); (width, height - tsize)].

(** [overlay = Image.new('RGBA', img.size, (255, 0, 0, 0))] followed by
    [overlay_draw.polygon(triangle, fill=(220, 20, 60, 200))]. *)
Definition dev_overlay (width height tsize : Z) : rgba_image :=
  polygon (triangle width height tsize) crimson
    (image_new width height (255, 0, 0, 0)).

(** [font_size = max(6, int(width * 0.25))]. *)
Definition font_size (width : Z) : option Z :=
  match PyFloat.int_mul width PyFloat.lit_0_25 with
  | Some n => Some (Z.max 6 n)
  | None => None
  end.

(** The nested [try: ImageFont.truetype(...) except (OSError, IOError):]
    chain, ending in [ImageFont.load_default()] and the warning. *)
Definition except_oserror {A} (m : Py A) (h : Py A) : Py A :=
  try_except m (fun e => if is_oserror e then h else raise e).

Definition choose_font (size : Z) : Py Font :=
  except_oserror (truetype font_dejavu size)
    (except_oserror (truetype font_arial size)
      (except_oserror (truetype font_helvetica size)
        (let! font := load_default in
         let! _ := print MsgFontWarning in
         ret font))).

(** [bbox = draw.textbbox((0, 0), text, font=font)], then
    [x = width - text_width - 2], [y = height - text_height - 2]. *)
Definition text_position (width height : Z) (text : string) (font : Font)
  : Z * Z :=
  let '(b0, b1, b2, b3) := textbbox (0, 0) text font in
  let text_width := b2 - b0 in
  let text_height := b3 - b1 in
  (width - text_width - 2, height - text_height - 2).

(** [create_dev_icon(src_path, dest_path)]. *)
Definition create_dev_icon (project_root src_path dest_path : path) : Py unit :=
  let! opened := image_open src_path in
  let! img := of_option (convert_rgba opened) (ValueError "conversion not supported") in
  let w := width img in
  let h := height img in
  let! tsize := of_option (triangle_size w) OverflowError in
  let overlay := dev_overlay w h tsize in
  let! img := of_option (alpha_composite img overlay) (ValueError "images do not match") in
  let! fsize := of_option (font_size w) OverflowError in
  let! font := choose_font fsize in
  let text := "DEV" in
  let xy := text_position w h text font in
  let img := draw_text xy text white font img in
  let! _ := image_save dest_path img in
  print (MsgCreated (relpath dest_path project_root)).

(** The loop of [main] over the icon names, threading [success_count]. *)
Fixpoint process_icons (project_root : path) (names : list string)
  (success_count : Z) : Py Z :=
  match names with
  | [] => ret success_count
  | icon_name :: rest =>
      let src_path := join (src_dir project_root) icon_name in
      let dest_path := join (dest_dir project_root) icon_name in
      let! e := os_path_exists src_path in
      if negb e then
        let! _ := print (MsgSkip icon_name) in
        process_icons project_root rest success_count
      else
        let! n := try_except
                    (let! _ := create_dev_icon project_root src_path dest_path in
                     ret (success_count + 1))
                    (fun ex => let! _ := print (MsgError icon_name (str_exc ex)) in
                               ret success_count) in
        process_icons project_root rest n
  end.

(** [main()]. *)
Definition main (project_root : path) : Py unit :=
  let! _ := print MsgRule in
  let! _ := print MsgTitle in
  let! _ := print MsgRule in
  let! _ := print MsgBlank in
  let! e := os_path_exists (src_dir project_root) in
  let! _ := if negb e then
              let! _ := print (MsgNoSrcDir (src_dir project_root)) in
              sys_exit 1
            else ret tt in
  let! _ := os_makedirs (dest_dir project_root) true in
  let! _ := print (MsgDestDir (relpath (dest_dir project_root) project_root)) in
  let! _ := print MsgBlank in
  let! success_count := process_icons project_root icons 0 in
  let! _ := print MsgBlank in
  let! _ := print MsgRule in
  let! _ := print (MsgDone success_count (Z.of_nat (length icons))) in
  print MsgRule.

(** Exit status of the interpreter: 0 on normal completion, the code of
    [sys.exit], 1 for an uncaught exception. *)
Definition exit_status {A} (o : outcome A) : Z :=
  match o with
  | Ret _ => 0
  | Exit n => n
  | Raise _ => 1
  end.

(** [python3 tools/create_dev_icons.py]: the final state and exit status. *)
Definition run_script (project_root : path) (w : world) : world * Z :=
  let '(w', o) := main project_root w in (w', exit_status o).

(** The font [choose_font] settles on: the first of the three font files
    that is a font, else the default font. *)
Definition first_font (m : gmap path entry) (size : Z) : option Font :=
  match path_lookup m font_dejavu with
  | Some (EFile (CFont face)) => Some (face size)
  | _ =>
      match path_lookup m font_arial with
      | Some (EFile (CFont face)) => Some (face size)
      | _ =>
          match path_lookup m font_helvetica with
          | Some (EFile (CFont face)) => Some (face size)
          | _ => None
          end
      end
  end.

Definition selected_font (w : world) (size : Z) : Font :=
  match first_font (fs w) size with
  | Some f => f
  | None => default_font w
  end.

(** The world after printing one line. *)
Definition print_w (l : msg) (w : world) : world :=
  mk_world (fs w) (out w ++ [l]) (default_font w).

(** The image [create_dev_icon] builds from the RGBA source [img], with
    triangle leg [tsize] and label font [font]. *)
Definition dev_image (img : rgba_image) (tsize : Z) (font : Font) : rgba_image :=
  let w := width img in
  let h := height img in
  let comp := mk_rgba w h (fun x y => composite_px (px img x y)
                                        (px (dev_overlay w h tsize) x y)) in
  draw_text (text_position w h "DEV" font) "DEV" white font comp.

(** The paths [main] may write: the prefixes of the destination
    directory and the destination icons. *)
Definition main_writes (root p : path) : Prop :=
  p `prefix_of` dest_dir root \/ exists n, n ∈ icons /\ p = join (dest_dir root) n.

(** The number of "created" lines in a list of console lines. *)
Fixpoint count_created (l : list msg) : Z :=
  match l with
  | [] => 0
  | MsgCreated _ :: l' => 1 + count_created l'
  | _ :: l' => count_created l'
  end.

(** The alpha channel of a pixel. *)
Definition alpha (c : rgba) : Z := let '(_, _, _, a) := c in a.

(** The leg length and font size of [create_dev_icon] agree with the
    integer formulas at [W]. *)
Definition sizes_ok (W : Z) : bool :=
  bool_decide (triangle_size W = Some (3 * W / 5)) &&
  bool_decide (font_size W = Some (Z.max 6 (W / 4))).

(** The entry [create_dev_icon project_root src dest] writes at [dest]
    when it completes, as a function of the file system before it and of
    the default font; [None] when it raises (and so writes nothing). *)
Definition dev_icon_entry (m : gmap path entry) (df : Font) (src dest : path)
  : option entry :=
  match path_lookup m src with
  | Some (EFile (CImage opened)) =>
      match convert_rgba opened with
      | Some img =>
          match triangle_size (width img), font_size (width img) with
          | Some t, Some n =>
              let font := match first_font m n with Some f => f | None => df end in
              match path_lookup m dest with
              | Some EDir => None
              | _ =>
                  match path_lookup m (removelast dest) with
                  | Some EDir => Some (EFile (CImage (to_saved (dev_image img t font))))
                  | _ => None
                  end
              end
          | _, _ => None
          end
      | None => None
      end
  | _ => None
  end.

(** What one iteration of the loop does to the file system. *)
Definition step_entry (root : path) (df : Font) (m : gmap path entry) (n : string)
  : option entry :=
  if bool_decide (is_Some (path_lookup m (join (src_dir root) n))) then
    dev_icon_entry m df (join (src_dir root) n) (join (dest_dir root) n)
  else None.

Definition icon_step (root : path) (df : Font) (m : gmap path entry) (n : string)
  : gmap path entry :=
  match step_entry root df m n with
  | Some e => <[join (dest_dir root) n := e]> m
  | None => m
  end.

(** The file system after a run of [main], as a function of the file
    system before it. *)
Definition makedirs_ok (root : path) (m : gmap path entry) : bool :=
  match path_lookup m (src_dir root), path_lookup m (dest_dir root) with
  | None, _ => false
  | Some _, Some EDir => true
  | Some EDir, None => true
  | Some _, _ => false
  end.

Definition run_files (root : path) (df : Font) (m : gmap path entry) : gmap path entry :=
  if makedirs_ok root m then foldl (icon_step root df) (<[dest_dir root := EDir]> m) icons
  else m.


(* ===================================================================== *)
(** ** Sample inputs *)
(* ===================================================================== *)

Module Samples.

Definition root : path := ["repo"].

(** A font whose text box at the origin is [(l, t, r, b)] and whose
    glyphs cover a stem at the left of every 6-pixel cell, rows
    [t + 1 .. b - 2]. *)
Definition cell_font (l t r b : Z) : Font :=
  mk_font (fun _ => (l, t, r, b))
    (fun _ x y =>
       if Z.leb l x && Z.ltb x r && Z.leb (t + 1) y && Z.ltb y (b - 1)
          && Z.eqb ((x - l) mod 6) 0
       then 255 else 0).

(** A stand-in for the font of [ImageFont.load_default()]: the text box of
    "DEV" is 18 x 11, as for Pillow's bitmap font; the mask (stems) is a
    simplification, not Pillow's glyphs. *)
Definition bitmap_default : Font := cell_font 0 0 18 11.

(** A TrueType face whose "DEV" box at the origin does not start at
    (0, 0).  The box is illustrative: DejaVu Sans Bold at 32 px gives
    (0, 7, 74, 30), with the same gap of 7 rows above the capitals. *)
Definition truetype_32 : Font := cell_font 3 7 72 30.

Definition solid (n : Z) (c : list Z) : image :=
  mk_image RGBA n n (fun _ _ => c).

Definition black : list Z := [0; 0; 0; 255].

Definition base_dirs : gmap path entry :=
  <[src_dir root := EDir]>
  (<[["repo"; "chrome-extension-wxt"] := EDir]> (<[["repo"] := EDir]> ∅)).

(** The source directory with icon-48.png missing. *)
Definition fs_missing48 : gmap path entry :=
  <[join (src_dir root) "icon-128.png" := EFile (CImage (solid 128 black))]>
  (<[join (src_dir root) "icon.png" := EFile (CImage (solid 128 black))]>
  (<[join (src_dir root) "icon-16.png" := EFile (CImage (solid 16 black))]>
  base_dirs)).

Definition w_missing48 : world := mk_world fs_missing48 [] bitmap_default.

(** All four icons present, icon.png not an image. *)
Definition w_broken : world :=
  mk_world
    (<[join (src_dir root) "icon-48.png" := EFile (CImage (solid 48 black))]>
     (<[join (src_dir root) "icon.png" := EFile CBytes]> fs_missing48))
    [] bitmap_default.

Definition gray16 : image := mk_image (L None) 16 16 (fun _ _ => [128]).

(** The sources and an existing destination directory; icon-16.png is a
    greyscale image. *)
Definition w_ready : world :=
  mk_world
    (<[join (src_dir root) "icon-16.png" := EFile (CImage gray16)]>
     (<[dest_dir root := EDir]> fs_missing48))
    [] bitmap_default.

Definition src16 : path := join (src_dir root) "icon-16.png".
Definition dest16 : path := join (dest_dir root) "icon-16.png".

(** The RGBA sources of [fs_missing48] and an existing destination
    directory. *)
Definition w_rgba : world :=
  mk_world (<[dest_dir root := EDir]> fs_missing48) [] bitmap_default.

(** A fully transparent 16 px RGBA source for icon-16.png, and an
    existing destination directory. *)
Definition clear : list Z := [0; 0; 0; 0].

Definition w_clear : world :=
  mk_world (<[src16 := EFile (CImage (solid 16 clear))]>
            (<[dest_dir root := EDir]> fs_missing48)) [] bitmap_default.

(** Pillow's bitmap font ([ImageFont.load_default()] before Pillow 10.1,
    and later when FreeType is missing): the text box of "DEV" is 18 x 11,
    three cells 6 pixels wide, the capitals on rows 3 to 8.  Of the glyphs
    only the middle of the top bar of "E" is given (cell columns 1 to 3 of
    the second cell, row 3); the other pixels of the mask are 0 here. *)
Definition pil_bitmap_E : Font :=
  mk_font (fun _ => (0, 0, 18, 11))
    (fun _ x y => if Z.leb 7 x && Z.leb x 9 && Z.eqb y 3 then 255 else 0).

(** The sources of [w_rgba] with no TrueType font installed and Pillow's
    bitmap font as the default font. *)
Definition w_pil : world :=
  mk_world (<[dest_dir root := EDir]> fs_missing48) [] pil_bitmap_E.

(** The sources of [fs_missing48], and a regular file where the
    destination directory should go. *)
Definition w_dest_file : world :=
  mk_world (<[dest_dir root := EFile CBytes]> fs_missing48) [] bitmap_default.

(** No source directory at all. *)
Definition w_empty : world := mk_world ∅ [] bitmap_default.

End Samples.

(* ===================================================================== *)
(** * Proofs *)
(* ===================================================================== *)

(** ** Python float arithmetic does not overflow on image widths *)

Module FloatFacts.
Import PyFloat.

Lemma digits2_size (p : positive) : digits2_pos p = Pos.size p.
Proof. induction p; simpl; congruence. Qed.

Lemma Zdigits2_log2 (m : Z) : 0 < m -> Zdigits2 m = Z.log2 m + 1.
Proof.
  intros Hm. destruct m as [|p|p]; try lia.
  unfold Zdigits2. rewrite digits2_size.
  destruct p as [p|p|]; simpl; try reflexivity; rewrite Pos2Z.inj_succ; lia.
Qed.

Lemma Zdigits2_nonneg (m : Z) : 0 <= Zdigits2 m.
Proof. destruct m; simpl; lia. Qed.

Lemma Zdigits2_bound (m K : Z) : 0 <= m -> m < 2 ^ K -> 0 <= K -> Zdigits2 m <= K.
Proof.
  intros H0 HK HK0. destruct (Z.eq_dec m 0) as [->|Hne]; [simpl; lia|].
  rewrite Zdigits2_log2 by lia.
  apply Z.log2_lt_pow2 in HK; lia.
Qed.

Lemma iter_pos_inv {A} (P : A -> Prop) (f : A -> A) :
  (forall x, P x -> P (f x)) -> forall p x, P x -> P (SpecFloat.iter_pos f p x).
Proof. intros Hf p. induction p; intros x Hx; simpl; auto. Qed.

Lemma shr_1_bound (B : Z) (r : shr_record) :
  0 <= shr_m r <= B -> 0 <= shr_m (shr_1 r) <= B.
Proof.
  destruct r as [m rb sb]; simpl. intros H.
  destruct m as [|[p|p|]|p]; simpl in *; lia.
Qed.

Lemma shr_fexp_bound (m e : Z) (l : location) :
  0 <= m ->
  0 <= shr_m (fst (shr_fexp prec emax m e l)) <= m /\
  snd (shr_fexp prec emax m e l) = Z.max e (fexp prec emax (Zdigits2 m + e)).
Proof.
  intros Hm. unfold shr_fexp, shr.
  assert (Hr : 0 <= shr_m (shr_record_of_loc m l) <= m)
    by (destruct l as [|[]]; simpl; lia).
  destruct (fexp prec emax (Zdigits2 m + e) - e) eqn:Hn; simpl.
  - split; [exact Hr | lia].
  - split.
    + apply (iter_pos_inv (fun r => 0 <= shr_m r <= m)); auto.
      intros x. apply shr_1_bound.
    + lia.
  - split; [exact Hr | lia].
Qed.

Lemma round_nearest_even_bound (x : Z) (l : location) :
  0 <= x -> x <= round_nearest_even x l <= x + 1.
Proof.
  intros H. destruct l as [|[]]; simpl; try lia.
  destruct (Z.even x); lia.
Qed.

(** [binary_round_aux] on a non-negative mantissa below [2^K - 1] and an
    exponent at most [E] keeps the sign and gives a finite float (or
    zero) whose mantissa is at most [m + 1] and exponent at most
    [max (E + 2K) (emin + K)]. *)
Lemma round_aux_bounded (s : bool) (m e : Z) (l : location) (K E : Z) :
  0 <= m -> m + 1 < 2 ^ K -> 0 <= K -> e <= E ->
  Z.max (E + 2 * K) (emin prec emax + K) <= emax - prec ->
  match binary_round_aux prec emax s m e l with
  | S754_zero s' => s' = s
  | S754_finite s' m'' e'' =>
      s' = s /\ Zpos m'' <= m + 1 /\ e'' <= Z.max (E + 2 * K) (emin prec emax + K)
  | _ => False
  end.
Proof.
  intros Hm HK HK0 He Hfin.
  unfold binary_round_aux.
  destruct (shr_fexp prec emax m e l) as [mrs' e'] eqn:H1.
  pose proof (shr_fexp_bound m e l Hm) as [Hb1 He1]. rewrite H1 in Hb1, He1.
  simpl in Hb1, He1.
  set (m' := round_nearest_even (shr_m mrs') (loc_of_shr_record mrs')).
  assert (Hm' : 0 <= m' <= m + 1).
  { pose proof (round_nearest_even_bound (shr_m mrs') (loc_of_shr_record mrs')).
    unfold m'; lia. }
  destruct (shr_fexp prec emax m' e' loc_Exact) as [mrs'' e''] eqn:H2.
  pose proof (shr_fexp_bound m' e' loc_Exact (proj1 Hm')) as [Hb2 He2].
  rewrite H2 in Hb2, He2. simpl in Hb2, He2.
  assert (Dm : Zdigits2 m <= K).
  { apply Zdigits2_bound; lia. }
  assert (Dm' : Zdigits2 m' <= K).
  { apply Zdigits2_bound; lia. }
  assert (Be' : e' <= Z.max (E + K) (emin prec emax)).
  { rewrite He1. pose proof (Zdigits2_nonneg m).
    unfold fexp, emin, prec, emax in *. lia. }
  assert (Be'' : e'' <= Z.max (E + 2 * K) (emin prec emax + K)).
  { rewrite He2. pose proof (Zdigits2_nonneg m').
    unfold fexp, emin, prec, emax in *. lia. }
  destruct (shr_m mrs'') as [|p|p] eqn:Hs; try lia.
  - reflexivity.
  - replace (e'' <=? emax - prec) with true by (symmetry; apply Z.leb_le; lia).
    repeat split; lia.
Qed.

Lemma pos_iter_xO (m d : positive) :
  Zpos (Pos.iter xO m d) = Zpos m * 2 ^ Zpos d.
Proof.
  induction d as [|d IH] using Pos.peano_ind.
  - simpl. lia.
  - rewrite Pos.iter_succ, Pos2Z.inj_succ, Z.pow_succ_r by lia.
    change (Zpos (xO (Pos.iter xO m d))) with (2 * Zpos (Pos.iter xO m d)).
    rewrite IH. lia.
Qed.

(** [float(W)] for [0 <= W < 2^53] is exact: zero or a positive finite
    float with a mantissa of at most 53 bits. *)
Lemma of_int_bounded (W : Z) :
  0 <= W < 2 ^ 53 ->
  match of_int W with
  | S754_zero s => s = false
  | S754_finite s m e => s = false /\ Zpos m <= 2 ^ 53 /\ e <= 108
  | _ => False
  end.
Proof.
  intros HW. destruct W as [|p|p]; try lia; [reflexivity|].
  unfold of_int, binary_normalize, binary_round.
  set (D := Zpos (digits2_pos p)).
  assert (HD : D = Z.log2 (Zpos p) + 1)
    by (unfold D; rewrite <- (Zdigits2_log2 (Zpos p)) by lia; reflexivity).
  pose proof (Z.log2_spec (Zpos p) ltac:(lia)) as [Hl1 Hl2].
  assert (HD53 : D <= 53).
  { pose proof (Z.log2_lt_pow2 (Zpos p) 53 ltac:(lia)) as [Hlt _]. lia. }
  assert (HDp : 1 <= D) by (pose proof (Z.log2_nonneg (Zpos p)); lia).
  assert (Hsh : exists mz ez, shl_align p 0 (fexp prec emax (D + 0)) = (mz, ez)
                 /\ Zpos mz < 2 ^ 53 /\ ez <= 0).
  { unfold shl_align, fexp, emin, prec, emax.
    replace (Z.max (D + 0 - 53) (3 - 1024 - 53) - 0) with (D - 53) by lia.
    destruct (D - 53) as [|d|d] eqn:Hd.
    - exists p, 0. repeat split; lia.
    - lia.
    - exists (Pos.iter xO p d), (Z.max (D + 0 - 53) (3 - 1024 - 53)).
      repeat split; try lia.
      rewrite pos_iter_xO.
      assert (E1 : 2 ^ Z.succ (Z.log2 (Zpos p)) * 2 ^ Zpos d = 2 ^ 53).
      { rewrite <- Z.pow_add_r by lia. f_equal. lia. }
      assert (0 < 2 ^ Zpos d) by (apply Z.pow_pos_nonneg; lia).
      nia. }
  destruct Hsh as (mz & ez & -> & Hmz & Hez).
  assert (Hb : Z.max (0 + 2 * 54) (emin prec emax + 54) <= emax - prec)
    by (unfold emin, prec, emax; lia).
  pose proof (round_aux_bounded false (Zpos mz) ez loc_Exact 54 0 ltac:(lia)
                ltac:(lia) ltac:(lia) Hez Hb) as H.
  destruct (binary_round_aux prec emax false (Zpos mz) ez loc_Exact);
    try contradiction; [assumption|].
  unfold emin, prec, emax in H.
  destruct H as (-> & Hm & He). repeat split; lia.
Qed.

(** [int(W * c)] for [0 <= W < 2^53] and a positive constant [c] with a
    53-bit mantissa and a non-positive exponent: no overflow, and the
    result is non-negative. *)
Lemma int_mul_bounded (W : Z) (mc : positive) (ec : Z) :
  0 <= W < 2 ^ 53 -> Zpos mc < 2 ^ 53 -> ec <= 0 ->
  exists n, int_mul W (S754_finite false mc ec) = Some n /\ 0 <= n.
Proof.
  intros HW Hmc Hec. unfold int_mul, mul.
  pose proof (of_int_bounded W HW) as H.
  destruct (of_int W) as [s|s| |s m e]; try contradiction.
  - subst. simpl. exists 0. split; [reflexivity | lia].
  - destruct H as (-> & Hm & He). simpl.
    pose proof (round_aux_bounded false (Zpos (m * mc)) (e + ec) loc_Exact
                  107 108 ltac:(lia)) as H.
    rewrite Pos2Z.inj_mul in H.
    assert (Zpos m * Zpos mc < 2 ^ 106).
    { change (2 ^ 106) with (2 ^ 53 * 2 ^ 53). nia. }
    assert (Hb : Z.max (108 + 2 * 107) (emin prec emax + 107) <= emax - prec)
      by (unfold emin, prec, emax; lia).
    specialize (H ltac:(lia) ltac:(lia) ltac:(lia) Hb).
    destruct (binary_round_aux prec emax false _ _ loc_Exact)
      as [s'|s'| |s' m' e']; try contradiction.
    + subst. exists 0. split; [reflexivity | lia].
    + destruct H as (-> & _ & _). simpl.
      eexists. split; [reflexivity|].
      destruct (0 <=? e'); [apply Z.shiftl_nonneg | apply Z.shiftr_nonneg]; lia.
Qed.

Lemma lit_0_6_eq : lit_0_6 = S754_finite false 5404319552844595 (-53).
Proof. vm_compute. reflexivity. Qed.

Lemma lit_0_25_eq : lit_0_25 = S754_finite false 4503599627370496 (-54).
Proof. vm_compute. reflexivity. Qed.

End FloatFacts.

(** ** The runtime: inversion and frame lemmas *)

Module Runtime.

Lemma bind_Ret_inv {A B} (m : Py A) (f : A -> Py B) (w w' : world) (b : B) :
  bind m f w = (w', Ret b) ->
  exists a w1, m w = (w1, Ret a) /\ f a w1 = (w', Ret b).
Proof.
  unfold bind. destruct (m w) as [w1 [a|e|n]]; try discriminate.
  intros H. eauto.
Qed.

Lemma of_option_Ret_inv {A} (o : option A) (e : exc) (w w' : world) (a : A) :
  of_option o e w = (w', Ret a) -> o = Some a /\ w' = w.
Proof. destruct o; simpl; unfold ret, raise; intros H; inversion H; auto. Qed.

Lemma image_open_Ret_inv (p : path) (w w' : world) (img : image) :
  image_open p w = (w', Ret img) ->
  path_lookup (fs w) p = Some (EFile (CImage img)) /\ w' = w.
Proof.
  unfold image_open, raise, ret.
  destruct (path_lookup (fs w) p) as [[|[]]|]; intros H; inversion H; auto.
Qed.

Lemma image_save_Ret_inv (p : path) (im : rgba_image) (w w' : world) (u : unit) :
  image_save p im w = (w', Ret u) ->
  w' = mk_world (<[p := EFile (CImage (to_saved im))]> (fs w)) (out w) (default_font w)
  /\ p <> [].
Proof.
  unfold image_save, raise, write_entry.
  destruct p as [|c p]; [simpl; intros H; discriminate|].
  destruct (path_lookup (fs w) (c :: p)) as [[|]|];
    destruct (path_lookup (fs w) (removelast (c :: p))) as [[|]|];
    intros H; inversion H; split; congruence.
Qed.

Lemma path_lookup_insert_eq (m : gmap path entry) (p : path) (e : entry) :
  p <> [] -> path_lookup (<[p := e]> m) p = Some e.
Proof. destruct p; [congruence|]. intros _. simpl. apply lookup_insert_eq. Qed.

(** [choose_font] never raises: it settles on [first_font], or on the
    default font after printing the warning; the file system is unchanged. *)
Lemma choose_font_eq (size : Z) (w : world) :
  choose_font size w =
  match first_font (fs w) size with
  | Some f => (w, Ret f)
  | None => (print_w MsgFontWarning w, Ret (default_font w))
  end.
Proof.
  unfold choose_font, except_oserror, try_except, truetype, first_font,
    load_default, bind, print, print_w, ret, raise.
  cbv beta iota delta [is_oserror].
  destruct (path_lookup (fs w) font_dejavu) as [[|[?| |]]|]; try reflexivity;
    cbv beta iota delta [is_oserror];
  destruct (path_lookup (fs w) font_arial) as [[|[?| |]]|]; try reflexivity;
    cbv beta iota delta [is_oserror];
  destruct (path_lookup (fs w) font_helvetica) as [[|[?| |]]|]; reflexivity.
Qed.

Lemma choose_font_Ret_inv (size : Z) (w w' : world) (f : Font) :
  choose_font size w = (w', Ret f) ->
  f = selected_font w size /\ fs w' = fs w /\ default_font w' = default_font w.
Proof.
  rewrite choose_font_eq. unfold selected_font, print_w.
  destruct (first_font (fs w) size); intros H; inversion H; subst; auto.
Qed.

(** *** Frames: the paths an operation may write *)

Definition frame {A} (S : path -> Prop) (m : Py A) : Prop :=
  forall w p, ~ S p -> fs (fst (m w)) !! p = fs w !! p.

Lemma frame_ret {A} S (a : A) : frame S (ret a).
Proof. intros w p _. reflexivity. Qed.

Lemma frame_raise {A} S e : frame S (@raise A e).
Proof. intros w p _. reflexivity. Qed.

Lemma frame_exit {A} S n : frame S (@sys_exit A n).
Proof. intros w p _. reflexivity. Qed.

Lemma frame_print S l : frame S (print l).
Proof. intros w p _. reflexivity. Qed.

Lemma frame_of_option {A} S (o : option A) e : frame S (of_option o e).
Proof. destruct o; [apply frame_ret | apply frame_raise]. Qed.

Lemma frame_exists S p : frame S (os_path_exists p).
Proof. intros w q _. reflexivity. Qed.

Lemma frame_isdir S p : frame S (os_path_isdir p).
Proof. intros w q _. reflexivity. Qed.

Lemma frame_bind {A B} S (m : Py A) (f : A -> Py B) :
  frame S m -> (forall a, frame S (f a)) -> frame S (bind m f).
Proof.
  intros Hm Hf w p Hp. unfold bind.
  specialize (Hm w p Hp).
  destruct (m w) as [w1 [a|e|n]]; simpl in *; try assumption.
  rewrite (Hf a w1 p Hp). assumption.
Qed.

Lemma frame_try {A} S (m : Py A) (h : exc -> Py A) :
  frame S m -> (forall e, frame S (h e)) -> frame S (try_except m h).
Proof.
  intros Hm Hh w p Hp. unfold try_except.
  specialize (Hm w p Hp).
  destruct (m w) as [w1 [a|e|n]]; simpl in *; try assumption.
  rewrite (Hh e w1 p Hp). assumption.
Qed.

Lemma frame_if {A} S (b : bool) (m1 m2 : Py A) :
  frame S m1 -> frame S m2 -> frame S (if b then m1 else m2).
Proof. destruct b; auto. Qed.

Lemma frame_mkdir (S : path -> Prop) name : S name -> frame S (os_mkdir name).
Proof.
  intros HS w p Hp. unfold os_mkdir, raise, write_entry.
  destruct (path_lookup (fs w) name); [reflexivity|].
  destruct (path_lookup (fs w) (removelast name)) as [[|]|]; simpl; try reflexivity.
  apply lookup_insert_ne. intros ->. contradiction.
Qed.

Lemma frame_save (S : path -> Prop) p im : S p -> frame S (image_save p im).
Proof.
  intros HS w q Hq. unfold image_save, raise, write_entry.
  destruct (path_lookup (fs w) p) as [[|]|];
    destruct (path_lookup (fs w) (removelast p)) as [[|]|]; simpl; try reflexivity;
    apply lookup_insert_ne; intros ->; contradiction.
Qed.

Lemma frame_truetype S p size : frame S (truetype p size).
Proof.
  intros w q _. unfold truetype, ret, raise.
  destruct (path_lookup (fs w) p) as [[|[]]|]; reflexivity.
Qed.

Lemma frame_load_default S : frame S load_default.
Proof. intros w q _. reflexivity. Qed.

Lemma frame_image_open S p : frame S (image_open p).
Proof.
  intros w q _. unfold image_open, ret, raise.
  destruct (path_lookup (fs w) p) as [[|[]]|]; reflexivity.
Qed.

Lemma frame_choose_font S size : frame S (choose_font size).
Proof.
  unfold choose_font, except_oserror.
  repeat (first [ apply frame_try; [| intro]
                | apply frame_if
                | apply frame_bind; [| intro]
                | apply frame_truetype | apply frame_raise | apply frame_ret
                | apply frame_print | apply frame_load_default ]).
Qed.

Ltac frame_step :=
  match goal with
  | |- frame _ (bind _ _) => apply frame_bind; [| intro]
  | |- frame _ (try_except _ _) => apply frame_try; [| intro]
  | |- frame _ (if _ then _ else _) => apply frame_if
  | |- frame _ (ret _) => apply frame_ret
  | |- frame _ (raise _) => apply frame_raise
  | |- frame _ (sys_exit _) => apply frame_exit
  | |- frame _ (print _) => apply frame_print
  | |- frame _ (of_option _ _) => apply frame_of_option
  | |- frame _ (os_path_exists _) => apply frame_exists
  | |- frame _ (os_path_isdir _) => apply frame_isdir
  | |- frame _ (truetype _ _) => apply frame_truetype
  | |- frame _ load_default => apply frame_load_default
  | |- frame _ (image_open _) => apply frame_image_open
  | |- frame _ (choose_font _) => apply frame_choose_font
  end.

Ltac frame_auto := repeat frame_step.

Lemma frame_makedirs_rev (rname : list string) (exist_ok : bool) :
  frame (fun p => p `prefix_of` rev rname) (makedirs_rev rname exist_ok).
Proof.
  induction rname as [|t rhead IH]; simpl makedirs_rev.
  - frame_auto. apply frame_mkdir. reflexivity.
  - apply frame_bind.
    + apply frame_bind; [apply frame_exists|]. intros e.
      apply frame_if; [apply frame_ret|].
      apply frame_try.
      * intros w p Hp. apply IH. intros Hpre. apply Hp.
        simpl. destruct Hpre as [k ->]. exists (k ++ [t]). by rewrite <- app_assoc.
      * intros ex. destruct ex; frame_auto.
    + intros _. apply frame_try.
      * apply frame_mkdir. reflexivity.
      * intros ex. frame_auto.
Qed.

Lemma frame_create_dev_icon (root src dest : path) :
  frame (fun p => p = dest) (create_dev_icon root src dest).
Proof.
  unfold create_dev_icon. frame_auto.
  apply frame_save. reflexivity.
Qed.

Lemma frame_process_icons (root : path) (names : list string) (c : Z) :
  frame (fun p => exists n, n ∈ names /\ p = join (dest_dir root) n)
    (process_icons root names c).
Proof.
  revert c. induction names as [|n rest IH]; intros c; simpl process_icons.
  - apply frame_ret.
  - apply frame_bind; [apply frame_exists|]. intros e.
    assert (Hrest : forall c', frame (fun p => exists n', n' ∈ n :: rest
                                        /\ p = join (dest_dir root) n')
                                 (process_icons root rest c')).
    { intros c' w p Hp. apply IH. intros (n' & Hin & ->). apply Hp.
      exists n'. split; [by apply elem_of_cons; right | reflexivity]. }
    apply frame_if.
    + apply frame_bind; [apply frame_print|]. intros _. apply Hrest.
    + apply frame_bind; [|intros; apply Hrest].
      apply frame_try.
      * apply frame_bind; [|intros; apply frame_ret].
        intros w p Hp. apply frame_create_dev_icon. intros ->. apply Hp.
        exists n. split; [apply elem_of_cons; left |]; reflexivity.
      * intros ex. frame_auto.
Qed.


Lemma frame_main (root : path) : frame (main_writes root) (main root).
Proof.
  unfold main. frame_auto.
  - intros w p Hp. apply frame_makedirs_rev. intros Hpre. apply Hp. left.
    unfold os_makedirs in *. by rewrite rev_involutive in Hpre.
  - intros w p Hp. apply frame_process_icons. intros Hn. apply Hp. right. exact Hn.
Qed.

(** *** The successful run of [create_dev_icon] *)


Lemma alpha_composite_overlay (img : rgba_image) (t : Z) :
  alpha_composite img (dev_overlay (width img) (height img) t) =
  Some (mk_rgba (width img) (height img)
          (fun x y => composite_px (px img x y)
                        (px (dev_overlay (width img) (height img) t) x y))).
Proof. unfold alpha_composite. simpl. by rewrite !Z.eqb_refl. Qed.

Lemma create_dev_icon_Ret_inv (root src dest : path) (w w' : world) :
  create_dev_icon root src dest w = (w', Ret tt) ->
  exists img cimg t n,
    path_lookup (fs w) src = Some (EFile (CImage img)) /\
    convert_rgba img = Some cimg /\
    triangle_size (width cimg) = Some t /\
    font_size (width cimg) = Some n /\
    dest <> [] /\
    fs w' = <[dest := EFile (CImage (to_saved (dev_image cimg t (selected_font w n))))]> (fs w).
Proof.
  unfold create_dev_icon. intros H.
  apply bind_Ret_inv in H as (img & w1 & H1 & H).
  apply image_open_Ret_inv in H1 as [Hsrc ->].
  apply bind_Ret_inv in H as (cimg & w2 & H2 & H).
  apply of_option_Ret_inv in H2 as [Hconv ->].
  apply bind_Ret_inv in H as (t & w3 & H3 & H).
  apply of_option_Ret_inv in H3 as [Ht ->].
  apply bind_Ret_inv in H as (cimg' & w4 & H4 & H).
  apply of_option_Ret_inv in H4 as [Hcomp ->].
  rewrite alpha_composite_overlay in Hcomp. injection Hcomp as <-.
  apply bind_Ret_inv in H as (n & w5 & H5 & H).
  apply of_option_Ret_inv in H5 as [Hn ->].
  apply bind_Ret_inv in H as (font & w6 & H6 & H).
  apply choose_font_Ret_inv in H6 as (-> & Hfs6 & Hdf6).
  apply bind_Ret_inv in H as ([] & w7 & H7 & H).
  apply image_save_Ret_inv in H7 as [-> Hne].
  unfold print in H. injection H as <-. simpl.
  exists img, cimg, t, n. repeat split; try assumption.
  rewrite Hfs6. reflexivity.
Qed.

End Runtime.

(** ** Shape lemmas *)

Module Shape.

Lemma convert_rgba_size (img cimg : image) (c : rgba_image) :
  convert_rgba img = Some c -> width c = im_width img /\ height c = im_height img.
Proof.
  unfold convert_rgba. destruct (pixel_to_rgba (im_mode img)); intros H;
    inversion H; auto.
Qed.

Lemma dev_image_size (img : rgba_image) (t : Z) (font : Font) :
  width (dev_image img t font) = width img /\ height (dev_image img t font) = height img.
Proof. split; reflexivity. Qed.

Lemma to_saved_shape (img : rgba_image) :
  im_mode (to_saved img) = RGBA /\
  im_width (to_saved img) = width img /\ im_height (to_saved img) = height img /\
  (forall x y, length (im_px (to_saved img) x y) = 4%nat).
Proof.
  repeat split. intros x y. simpl. unfold rgba_list.
  destruct (px img x y) as [[[r g] b] a]. reflexivity.
Qed.

Lemma run_script_fst (root : path) (w : world) :
  fst (run_script root w) = fst (main root w).
Proof. unfold run_script. destruct (main root w). reflexivity. Qed.

Lemma src_not_dest (root : path) (a b : string) :
  join (src_dir root) a <> join (dest_dir root) b.
Proof.
  unfold join, src_dir, dest_dir. intros H. apply (f_equal length) in H.
  rewrite !length_app in H. simpl in H. lia.
Qed.

Lemma src_not_main_write (root : path) (n : string) :
  n <> "dev" -> ~ main_writes root (join (src_dir root) n).
Proof.
  intros Hn [Hpre | (b & _ & Heq)].
  - apply prefix_length_eq in Hpre.
    + unfold join, src_dir, dest_dir in Hpre. rewrite <- app_assoc in Hpre.
      apply app_inv_head in Hpre. injection Hpre as Hpre. contradiction.
    + unfold join, src_dir, dest_dir. rewrite !length_app. simpl. lia.
  - exact (src_not_dest root n b Heq).
Qed.

(** The overlay inside the image: crimson exactly on the pixels whose
    distances to the right and bottom edges sum to at most [t]. *)
Lemma overlay_pixel (W H t x y : Z) :
  0 <= x < W -> 0 <= y < H ->
  px (dev_overlay W H t) x y =
  if (W - x) + (H - y) <=? t then crimson else (255, 0, 0, 0).
Proof.
  intros Hx Hy. unfold dev_overlay, polygon, triangle, image_new. simpl px.
  unfold in_triangle, on_segment.
  assert (Eabc : cross (W, H) (W - t, H) (W, H - t) = t * t)
    by (unfold cross; simpl; ring).
  assert (E1 : cross (W, H) (W - t, H) (x, y) = t * (H - y))
    by (unfold cross; simpl; ring).
  assert (E2 : cross (W - t, H) (W, H - t) (x, y) = t * (x + y - W - H + t))
    by (unfold cross; simpl; ring).
  assert (E3 : cross (W, H - t) (W, H) (x, y) = t * (W - x))
    by (unfold cross; simpl; ring).
  rewrite Eabc, E1, E2, E3. simpl fst; simpl snd.
  destruct (Z.lt_trichotomy t 0) as [Ht|[->|Ht]].
  - assert (t * t <> 0) by nia.
    replace (t * t =? 0) with false by (symmetry; apply Z.eqb_neq; assumption).
    replace (0 <=? t * (H - y)) with false by (symmetry; apply Z.leb_gt; nia).
    replace (t * (H - y) <=? 0) with true by (symmetry; apply Z.leb_le; nia).
    replace (t * (W - x) <=? 0) with true by (symmetry; apply Z.leb_le; nia).
    replace ((W - x) + (H - y) <=? t) with false by (symmetry; apply Z.leb_gt; lia).
    simpl. destruct (Z.leb_spec (t * (x + y - W - H + t)) 0); [nia | reflexivity].
  - simpl. replace (W - 0) with W by lia.
    replace (Z.min W W <=? x) with false by (symmetry; apply Z.leb_gt; lia).
    replace ((W - x) + (H - y) <=? 0) with false by (symmetry; apply Z.leb_gt; lia).
    repeat rewrite ?andb_false_r, ?andb_false_l, ?orb_false_l, ?orb_false_r.
    reflexivity.
  - assert (t * t <> 0) by nia.
    replace (t * t =? 0) with false by (symmetry; apply Z.eqb_neq; assumption).
    replace (0 <=? t * (H - y)) with true by (symmetry; apply Z.leb_le; nia).
    replace (t * (H - y) <=? 0) with false by (symmetry; apply Z.leb_gt; nia).
    replace (0 <=? t * (W - x)) with true by (symmetry; apply Z.leb_le; nia).
    simpl. rewrite andb_true_r, orb_false_r.
    destruct (Z.leb_spec 0 (t * (x + y - W - H + t)));
      destruct (Z.leb_spec ((W - x) + (H - y)) t); try reflexivity; nia.
Qed.

(** Compositing the fully transparent overlay colour changes nothing. *)
Lemma composite_transparent (c : rgba) : composite_px c (255, 0, 0, 0) = c.
Proof. destruct c as [[[r g] b] a]. reflexivity. Qed.

(** A pixel of [dev_image] that the label's mask leaves uncovered is the
    composite of the overlay over the converted source. *)
Lemma dev_image_uncovered (img : rgba_image) (t : Z) (font : Font) (x y : Z) :
  0 <= x < width img -> 0 <= y < height img ->
  mask font "DEV" (x - fst (text_position (width img) (height img) "DEV" font))
    (y - snd (text_position (width img) (height img) "DEV" font)) = 0 ->
  px (dev_image img t font) x y =
  if (width img - x) + (height img - y) <=? t
  then composite_px (px img x y) (220, 20, 60, 200) else px img x y.
Proof.
  intros Hx Hy Hm. unfold dev_image, draw_text. cbn [px]. rewrite Hm.
  unfold text_px. cbn [Z.eqb px].
  rewrite overlay_pixel by assumption.
  destruct (_ <=? t); [reflexivity | apply composite_transparent].
Qed.

End Shape.

(** ** The batch loop and [main] *)

Module Loop.

(** The computation never ends in [sys.exit]. *)
Definition no_exit {A} (m : Py A) : Prop := forall w w' n, m w <> (w', Exit n).

Lemma no_exit_bind {A B} (m : Py A) (f : A -> Py B) :
  no_exit m -> (forall a, no_exit (f a)) -> no_exit (bind m f).
Proof.
  intros Hm Hf w w' n. unfold bind.
  destruct (m w) as [w1 [a|e|k]] eqn:E;
    [apply Hf | discriminate | intros _; exact (Hm w w1 k E)].
Qed.

Lemma no_exit_ret {A} (a : A) : no_exit (ret a).
Proof. intros w w' n. unfold ret. discriminate. Qed.

Lemma no_exit_raise {A} (e : exc) : no_exit (A:=A) (raise e).
Proof. intros w w' n. unfold raise. discriminate. Qed.

Lemma no_exit_print (l : msg) : no_exit (print l).
Proof. intros w w' n. unfold print. discriminate. Qed.

Lemma no_exit_of_option {A} (o : option A) (e : exc) : no_exit (of_option o e).
Proof. destruct o; [apply no_exit_ret | apply no_exit_raise]. Qed.

Lemma no_exit_image_open (p : path) : no_exit (image_open p).
Proof.
  intros w w' n. unfold image_open, ret, raise.
  destruct (path_lookup (fs w) p) as [[|[]]|]; discriminate.
Qed.

Lemma no_exit_image_save (p : path) (img : rgba_image) : no_exit (image_save p img).
Proof.
  intros w w' n. unfold image_save, write_entry, raise.
  destruct (path_lookup (fs w) p) as [[|c]|];
    destruct (path_lookup (fs w) (removelast p)) as [[|c']|]; discriminate.
Qed.

Lemma no_exit_choose_font (size : Z) : no_exit (choose_font size).
Proof.
  intros w w' n. rewrite Runtime.choose_font_eq.
  destruct (first_font (fs w) size); discriminate.
Qed.

Lemma create_dev_icon_no_exit (root src dest : path) :
  no_exit (create_dev_icon root src dest).
Proof.
  unfold create_dev_icon. cbv zeta.
  repeat (apply no_exit_bind;
          [first [apply no_exit_image_open | apply no_exit_of_option
                 | apply no_exit_choose_font | apply no_exit_image_save] | intros ?]).
  apply no_exit_print.
Qed.

(** The three paths through one iteration of the loop. *)
Lemma process_icons_skip (root : path) (n : string) (rest : list string) (c : Z) (w : world) :
  path_lookup (fs w) (join (src_dir root) n) = None ->
  process_icons root (n :: rest) c w = process_icons root rest c (print_w (MsgSkip n) w).
Proof.
  intros H. cbn [process_icons]. unfold bind at 1, os_path_exists. rewrite H.
  reflexivity.
Qed.

Lemma process_icons_created (root : path) (n : string) (rest : list string) (c : Z)
  (w w1 : world) :
  is_Some (path_lookup (fs w) (join (src_dir root) n)) ->
  create_dev_icon root (join (src_dir root) n) (join (dest_dir root) n) w = (w1, Ret tt) ->
  process_icons root (n :: rest) c w = process_icons root rest (c + 1) w1.
Proof.
  intros Hs Hc. cbn [process_icons]. unfold bind at 1, os_path_exists.
  rewrite bool_decide_true by exact Hs. cbn [negb].
  unfold bind at 1, try_except. unfold bind at 1. rewrite Hc. reflexivity.
Qed.

Lemma process_icons_failed (root : path) (n : string) (rest : list string) (c : Z)
  (w w1 : world) (e : exc) :
  is_Some (path_lookup (fs w) (join (src_dir root) n)) ->
  create_dev_icon root (join (src_dir root) n) (join (dest_dir root) n) w = (w1, Raise e) ->
  process_icons root (n :: rest) c w =
  process_icons root rest c (print_w (MsgError n (str_exc e)) w1).
Proof.
  intros Hs Hc. cbn [process_icons]. unfold bind at 1, os_path_exists.
  rewrite bool_decide_true by exact Hs. cbn [negb].
  unfold bind at 1, try_except. unfold bind at 1. rewrite Hc. reflexivity.
Qed.

(** The loop never raises and never exits; it counts at most one success
    per name. *)
Lemma process_icons_Ret (root : path) (names : list string) :
  forall c w, exists w' c',
    process_icons root names c w = (w', Ret c') /\
    c <= c' <= c + Z.of_nat (length names).
Proof.
  induction names as [|n rest IH]; intros c w.
  - exists w, c. split; [reflexivity | lia].
  - destruct (path_lookup (fs w) (join (src_dir root) n)) as [en|] eqn:Hs.
    + assert (Hs' : is_Some (path_lookup (fs w) (join (src_dir root) n)))
        by (rewrite Hs; eexists; reflexivity).
      destruct (create_dev_icon root (join (src_dir root) n) (join (dest_dir root) n) w)
        as [w1 [[]|e|k]] eqn:Hc.
      * rewrite (process_icons_created _ _ _ _ _ _ Hs' Hc).
        destruct (IH (c + 1) w1) as (w' & c' & E & Hb).
        exists w', c'. split; [exact E | simpl length; lia].
      * rewrite (process_icons_failed _ _ _ _ _ _ _ Hs' Hc).
        destruct (IH c (print_w (MsgError n (str_exc e)) w1)) as (w' & c' & E & Hb).
        exists w', c'. split; [exact E | simpl length; lia].
      * exfalso. exact (create_dev_icon_no_exit _ _ _ w w1 k Hc).
    + rewrite (process_icons_skip _ _ _ _ _ Hs).
      destruct (IH c (print_w (MsgSkip n) w)) as (w' & c' & E & Hb).
      exists w', c'. split; [exact E | simpl length; lia].
Qed.

(** [os.makedirs(dest_dir, exist_ok=True)] when [src_dir] is a directory
    and [dest_dir] is absent or a directory: [dest_dir] is then a
    directory, nothing else changes, nothing is printed. *)
Lemma makedirs_dest (root : path) (w : world) :
  path_lookup (fs w) (src_dir root) = Some EDir ->
  path_lookup (fs w) (dest_dir root) = None \/
  path_lookup (fs w) (dest_dir root) = Some EDir ->
  os_makedirs (dest_dir root) true w =
  (mk_world (<[dest_dir root := EDir]> (fs w)) (out w) (default_font w), Ret tt).
Proof.
  intros Hs Hd.
  assert (Ed : dest_dir root = src_dir root ++ ["dev"])
    by (unfold dest_dir, src_dir; rewrite <- app_assoc; reflexivity).
  assert (Hne : dest_dir root <> []) by (rewrite Ed; destruct (src_dir root); discriminate).
  unfold os_makedirs. rewrite Ed at 1. rewrite rev_unit. cbn [makedirs_rev].
  unfold bind at 1 2, os_path_exists. rewrite rev_involutive, Hs.
  rewrite bool_decide_true by (eexists; reflexivity). unfold ret at 1.
  change (rev ("dev" :: rev (src_dir root))) with (rev (rev (src_dir root)) ++ ["dev"]).
  rewrite rev_involutive, <- Ed.
  unfold try_except, os_mkdir.
  destruct Hd as [Hd|Hd]; rewrite Hd.
  - assert (Er : removelast (dest_dir root) = src_dir root)
      by (rewrite Ed; apply removelast_last).
    rewrite Er, Hs. reflexivity.
  - unfold raise, bind, os_path_isdir. rewrite Hd. cbn.
    destruct w as [m o f]. cbn in *. unfold ret.
    rewrite insert_id; [reflexivity|].
    destruct (dest_dir root); [congruence | exact Hd].
Qed.

(** A run in which [src_dir] is a directory and [dest_dir] is absent or a
    directory prints the banner and the destination, every message of the
    loop, and the summary with the number of icons created; it exits with
    status 0. *)
Lemma main_completes (root : path) (w : world) :
  path_lookup (fs w) (src_dir root) = Some EDir ->
  path_lookup (fs w) (dest_dir root) = None \/
  path_lookup (fs w) (dest_dir root) = Some EDir ->
  exists w1 c,
    process_icons root icons 0
      (mk_world (<[dest_dir root := EDir]> (fs w))
         (out w ++ [MsgRule; MsgTitle; MsgRule; MsgBlank;
                    MsgDestDir (relpath (dest_dir root) root); MsgBlank])
         (default_font w)) = (w1, Ret c) /\
    0 <= c <= 4 /\
    run_script root w =
    (mk_world (fs w1) (out w1 ++ [MsgBlank; MsgRule; MsgDone c 4; MsgRule])
       (default_font w1), 0).
Proof.
  intros Hs Hd.
  pose proof (makedirs_dest root w Hs Hd) as Hm.
  destruct (process_icons_Ret root icons 0
      (mk_world (<[dest_dir root := EDir]> (fs w))
         (out w ++ [MsgRule; MsgTitle; MsgRule; MsgBlank;
                    MsgDestDir (relpath (dest_dir root) root); MsgBlank])
         (default_font w))) as (w1 & c & Hp & Hb).
  exists w1, c. split; [exact Hp|]. split; [simpl in Hb; lia|].
  unfold run_script, main. unfold bind at 1 2 3 4 5, print at 1 2 3 4.
  cbn [fs out default_font].
  unfold bind at 1, os_path_exists. cbn [fs]. rewrite Hs.
  rewrite bool_decide_true by (eexists; reflexivity). cbn [negb].
  unfold bind at 1, ret at 1.
  unfold bind at 1. 
  set (w0 := mk_world (fs w) _ (default_font w)).
  assert (Hm0 : os_makedirs (dest_dir root) true w0 =
    (mk_world (<[dest_dir root := EDir]> (fs w0)) (out w0) (default_font w0), Ret tt)).
  { apply makedirs_dest; assumption. }
  rewrite Hm0. subst w0. cbn [fs out default_font].
  unfold bind at 1 2, print at 1 2. cbn [fs out default_font].
  rewrite <- !app_assoc. cbn [app].
  unfold bind at 1. rewrite Hp.
  unfold bind, print. cbn [fs out default_font exit_status].
  rewrite <- !app_assoc. reflexivity.
Qed.

End Loop.

(** ** Effects of one icon, pixels of the output *)

Module Effects.

Lemma bind_Raise_inv {A B} (m : Py A) (f : A -> Py B) (w w' : world) (e : exc) :
  bind m f w = (w', Raise e) ->
  m w = (w', Raise e) \/ exists a w1, m w = (w1, Ret a) /\ f a w1 = (w', Raise e).
Proof.
  unfold bind. destruct (m w) as [w1 [a|e'|n]]; intros H; try discriminate.
  - right. eauto.
  - left. injection H as -> ->. reflexivity.
Qed.

Lemma image_open_world (p : path) (w : world) : fst (image_open p w) = w.
Proof.
  unfold image_open, ret, raise.
  destruct (path_lookup (fs w) p) as [[|[]]|]; reflexivity.
Qed.

Lemma of_option_world {A} (o : option A) (e : exc) (w : world) :
  fst (of_option o e w) = w.
Proof. destruct o; reflexivity. Qed.

Lemma image_save_Raise_inv (p : path) (im : rgba_image) (w w' : world) (e : exc) :
  image_save p im w = (w', Raise e) -> w' = w.
Proof.
  unfold image_save, raise, write_entry.
  destruct (path_lookup (fs w) p) as [[|]|];
    destruct (path_lookup (fs w) (removelast p)) as [[|]|];
    intros H; inversion H; reflexivity.
Qed.

Ltac step_world H :=
  match type of H with
  | image_open ?p ?w = (?w1, _) =>
      let E := fresh in
      pose proof (image_open_world p w) as E; rewrite H in E; simpl in E; subst w1; clear H
  | of_option ?o ?e ?w = (?w1, _) =>
      let E := fresh in
      pose proof (of_option_world o e w) as E; rewrite H in E; simpl in E; subst w1; clear H
  end.

(** A failed [create_dev_icon] leaves the file system as it was, and
    prints at most the font warning. *)
Lemma create_dev_icon_Raise_inv (root src dest : path) (w w1 : world) (e : exc) :
  create_dev_icon root src dest w = (w1, Raise e) ->
  fs w1 = fs w /\ default_font w1 = default_font w /\
  (out w1 = out w \/ out w1 = out w ++ [MsgFontWarning]).
Proof.
  unfold create_dev_icon. cbv zeta. intros H.
  apply bind_Raise_inv in H as [H|(img & w2 & H1 & H)];
    [step_world H; auto|step_world H1].
  apply bind_Raise_inv in H as [H|(cimg & w2 & H1 & H)];
    [step_world H; auto|step_world H1].
  apply bind_Raise_inv in H as [H|(t & w2 & H1 & H)];
    [step_world H; auto|step_world H1].
  apply bind_Raise_inv in H as [H|(cimg' & w2 & H1 & H)];
    [step_world H; auto|step_world H1].
  apply bind_Raise_inv in H as [H|(n & w2 & H1 & H)];
    [step_world H; auto|step_world H1].
  apply bind_Raise_inv in H as [H|(font & w2 & H1 & H)].
  { rewrite Runtime.choose_font_eq in H. destruct (first_font _ _); discriminate. }
  assert (Hw2 : w2 = w \/ w2 = print_w MsgFontWarning w).
  { rewrite Runtime.choose_font_eq in H1.
    destruct (first_font _ _); injection H1 as <- _; auto. }
  apply bind_Raise_inv in H as [H|(u & w3 & H2 & H)].
  - apply image_save_Raise_inv in H. subst w1.
    destruct Hw2 as [->| ->]; unfold print_w; simpl; auto.
  - unfold print in H. discriminate.
Qed.

(** A successful [create_dev_icon] prints the created destination,
    relative to the project root, after the font warning if no system
    font loaded. *)
Lemma create_dev_icon_Ret_out (root src dest : path) (w w' : world) :
  create_dev_icon root src dest w = (w', Ret tt) ->
  default_font w' = default_font w /\
  (out w' = out w ++ [MsgCreated (relpath dest root)] \/
   out w' = out w ++ [MsgFontWarning; MsgCreated (relpath dest root)]).
Proof.
  unfold create_dev_icon. cbv zeta. intros H.
  apply Runtime.bind_Ret_inv in H as (img & w1 & H1 & H). step_world H1.
  apply Runtime.bind_Ret_inv in H as (cimg & w1 & H1 & H). step_world H1.
  apply Runtime.bind_Ret_inv in H as (t & w1 & H1 & H). step_world H1.
  apply Runtime.bind_Ret_inv in H as (cimg' & w1 & H1 & H). step_world H1.
  apply Runtime.bind_Ret_inv in H as (n & w1 & H1 & H). step_world H1.
  apply Runtime.bind_Ret_inv in H as (font & w2 & H1 & H).
  assert (Hw2 : w2 = w \/ w2 = print_w MsgFontWarning w).
  { rewrite Runtime.choose_font_eq in H1.
    destruct (first_font _ _); injection H1 as <- _; auto. }
  apply Runtime.bind_Ret_inv in H as (u & w3 & H2 & H).
  apply Runtime.image_save_Ret_inv in H2 as [-> _].
  unfold print in H. injection H as <-. simpl.
  destruct Hw2 as [->| ->]; unfold print_w; simpl; auto.
  rewrite <- app_assoc. auto.
Qed.

Lemma count_created_app (l1 l2 : list msg) :
  count_created (l1 ++ l2) = count_created l1 + count_created l2.
Proof. induction l1 as [|[] l1 IH]; simpl; lia. Qed.

(** The loop only appends to the output, and the count it returns grows
    by the number of "created" lines it printed. *)
Lemma process_icons_out (root : path) (names : list string) :
  forall c w w' c', process_icons root names c w = (w', Ret c') ->
  default_font w' = default_font w /\
  exists L, out w' = out w ++ L /\ c' = c + count_created L.
Proof.
  induction names as [|n rest IH]; intros c w w' c' H.
  - injection H as <- <-. split; [reflexivity|]. exists []. rewrite app_nil_r. split; [reflexivity|simpl; lia].
  - destruct (path_lookup (fs w) (join (src_dir root) n)) as [en|] eqn:Hs.
    + assert (Hs' : is_Some (path_lookup (fs w) (join (src_dir root) n)))
        by (rewrite Hs; eexists; reflexivity).
      destruct (create_dev_icon root (join (src_dir root) n) (join (dest_dir root) n) w)
        as [w1 [[]|e|k]] eqn:Hc.
      * rewrite (Loop.process_icons_created _ _ _ _ _ _ Hs' Hc) in H.
        destruct (IH _ _ _ _ H) as (Hdf & L & HL & Hcnt).
        destruct (create_dev_icon_Ret_out _ _ _ _ _ Hc) as (Hdf1 & [Ho|Ho]);
          (split; [congruence|]); rewrite Ho in HL.
        -- exists ([MsgCreated (relpath (join (dest_dir root) n) root)] ++ L).
           rewrite HL, app_assoc. split; [reflexivity|].
           rewrite count_created_app. simpl. lia.
        -- exists ([MsgFontWarning; MsgCreated (relpath (join (dest_dir root) n) root)] ++ L).
           rewrite HL, app_assoc. split; [reflexivity|].
           rewrite count_created_app. simpl. lia.
      * rewrite (Loop.process_icons_failed _ _ _ _ _ _ _ Hs' Hc) in H.
        destruct (IH _ _ _ _ H) as (Hdf & L & HL & Hcnt).
        destruct (create_dev_icon_Raise_inv _ _ _ _ _ _ Hc) as (_ & Hdf1 & [Ho|Ho]);
          (split; [unfold print_w in Hdf; simpl in Hdf; congruence|]);
          unfold print_w in HL; simpl in HL; rewrite Ho in HL.
        -- exists ([MsgError n (str_exc e)] ++ L).
           rewrite HL, <- app_assoc. split; [reflexivity|].
           rewrite count_created_app. simpl. lia.
        -- exists ([MsgFontWarning; MsgError n (str_exc e)] ++ L).
           rewrite HL, <- !app_assoc. split; [reflexivity|].
           rewrite count_created_app. simpl. lia.
      * exfalso. exact (Loop.create_dev_icon_no_exit _ _ _ w w1 k Hc).
    + rewrite (Loop.process_icons_skip _ _ _ _ _ Hs) in H.
      destruct (IH _ _ _ _ H) as (Hdf & L & HL & Hcnt).
      split; [unfold print_w in Hdf; simpl in Hdf; congruence|].
      exists ([MsgSkip n] ++ L). unfold print_w in HL; simpl in HL.
      rewrite HL, <- app_assoc. split; [reflexivity|].
      rewrite count_created_app. simpl. lia.
Qed.

(** The lines a successful [create_dev_icon] prints: the font warning
    exactly when none of the three system fonts is a font file, then the
    "created" line. *)
Lemma create_dev_icon_Ret_msgs (root src dest : path) (w w' : world) :
  create_dev_icon root src dest w = (w', Ret tt) ->
  exists img cimg n,
    path_lookup (fs w) src = Some (EFile (CImage img)) /\
    convert_rgba img = Some cimg /\
    font_size (width cimg) = Some n /\
    out w' = out w ++ match first_font (fs w) n with
                      | Some _ => []
                      | None => [MsgFontWarning]
                      end ++ [MsgCreated (relpath dest root)].
Proof.
  unfold create_dev_icon. intros H.
  apply Runtime.bind_Ret_inv in H as (img & w1 & H1 & H).
  apply Runtime.image_open_Ret_inv in H1 as [Hsrc ->].
  apply Runtime.bind_Ret_inv in H as (cimg & w2 & H2 & H).
  apply Runtime.of_option_Ret_inv in H2 as [Hconv ->].
  apply Runtime.bind_Ret_inv in H as (t & w3 & H3 & H).
  apply Runtime.of_option_Ret_inv in H3 as [Ht ->].
  apply Runtime.bind_Ret_inv in H as (cimg' & w4 & H4 & H).
  apply Runtime.of_option_Ret_inv in H4 as [Hcomp ->].
  apply Runtime.bind_Ret_inv in H as (n & w5 & H5 & H).
  apply Runtime.of_option_Ret_inv in H5 as [Hn ->].
  apply Runtime.bind_Ret_inv in H as (font & w6 & H6 & H).
  apply Runtime.bind_Ret_inv in H as ([] & w7 & H7 & H).
  apply Runtime.image_save_Ret_inv in H7 as [-> _].
  unfold print in H. injection H as <-.
  exists img, cimg, n. split; [exact Hsrc|]. split; [exact Hconv|]. split; [exact Hn|].
  rewrite Runtime.choose_font_eq in H6.
  destruct (first_font (fs w) n); injection H6 as <- _; cbn [out print_w].
  - reflexivity.
  - rewrite <- app_assoc. reflexivity.
Qed.

Lemma relpath_dest_dir (root : path) :
  relpath (dest_dir root) root = ["chrome-extension-wxt"; "public"; "dev"].
Proof. unfold relpath, dest_dir. apply drop_app_length. Qed.

Lemma makedirs_dest_fails (root : path) (w : world) :
  is_Some (path_lookup (fs w) (src_dir root)) ->
  (exists c, path_lookup (fs w) (dest_dir root) = Some (EFile c)) \/
  (exists c, path_lookup (fs w) (src_dir root) = Some (EFile c) /\
             path_lookup (fs w) (dest_dir root) = None) ->
  exists e, os_makedirs (dest_dir root) true w = (w, Raise e).
Proof.
  intros Hs Hd.
  assert (Ed : dest_dir root = src_dir root ++ ["dev"])
    by (unfold dest_dir, src_dir; rewrite <- app_assoc; reflexivity).
  assert (Er : removelast (dest_dir root) = src_dir root)
    by (rewrite Ed; apply removelast_last).
  destruct Hd as [[c Hd]|[c [Hs' Hd]]];
    [exists (FileExistsError (dest_dir root)) | exists (NotADirectoryError (dest_dir root))];
    unfold os_makedirs; rewrite Ed at 1; rewrite rev_unit; cbn [makedirs_rev];
    unfold bind at 1 2, os_path_exists; rewrite rev_involutive;
    rewrite bool_decide_true by exact Hs; unfold ret at 1;
    change (rev ("dev" :: rev (src_dir root))) with (rev (rev (src_dir root)) ++ ["dev"]);
    rewrite rev_involutive, <- Ed;
    unfold try_except, os_mkdir; rewrite Hd.
  - unfold raise, bind, os_path_isdir. rewrite Hd. reflexivity.
  - rewrite Er, Hs'. unfold raise, bind, os_path_isdir. rewrite Hd. reflexivity.
Qed.

End Effects.

Module Pixels.

Lemma overlay_cases (W H t x y : Z) :
  px (dev_overlay W H t) x y = crimson \/ px (dev_overlay W H t) x y = (255, 0, 0, 0).
Proof.
  unfold dev_overlay, polygon, triangle, image_new. cbn [px].
  destruct (in_triangle _ _ _ _); auto.
Qed.

Lemma blend_opaque (m : Z) : blend m 255 255 = 255.
Proof. unfold blend. replace (255 * (255 - m) + 255 * m) with 65025 by ring. reflexivity. Qed.


(** An opaque pixel stays opaque through the overlay and the label. *)
Lemma dev_image_opaque (img : rgba_image) (t : Z) (font : Font) (x y : Z) :
  alpha (px img x y) = 255 -> alpha (px (dev_image img t font) x y) = 255.
Proof.
  intros Ha. unfold dev_image, draw_text. cbn [px]. unfold text_px.
  destruct (px img x y) as [[[r g] b] a]. cbn in Ha. subst a.
  destruct (overlay_cases (width img) (height img) t x y) as [E|E]; rewrite E;
    cbn [composite_px]; unfold crimson, white;
    destruct (Z.eqb _ 0); try reflexivity; cbn [alpha]; apply blend_opaque.
Qed.

(** A pixel the glyph mask covers fully is opaque white. *)
Lemma dev_image_glyph (img : rgba_image) (t : Z) (font : Font) (x y : Z) :
  mask font "DEV" (x - fst (text_position (width img) (height img) "DEV" font))
    (y - snd (text_position (width img) (height img) "DEV" font)) = 255 ->
  px (dev_image img t font) x y = (255, 255, 255, 255).
Proof.
  intros Hm. unfold dev_image, draw_text. cbn [px]. rewrite Hm. unfold text_px.
  cbn [Z.eqb]. unfold white.
  destruct (composite_px _ _) as [[[r g] b] a].
  unfold blend. replace (r * (255 - 255) + 255 * 255) with 65025 by ring.
  replace (g * (255 - 255) + 255 * 255) with 65025 by ring.
  replace (b * (255 - 255) + 255 * 255) with 65025 by ring.
  replace (a * (255 - 255) + 255 * 255) with 65025 by ring. reflexivity.
Qed.

(** A fully transparent source pixel inside the triangle and outside the
    label shows exactly the overlay colour. *)
Lemma dev_image_transparent (img : rgba_image) (t : Z) (font : Font) (x y : Z) :
  0 <= x < width img -> 0 <= y < height img ->
  (width img - x) + (height img - y) <= t ->
  mask font "DEV" (x - fst (text_position (width img) (height img) "DEV" font))
    (y - snd (text_position (width img) (height img) "DEV" font)) = 0 ->
  alpha (px img x y) = 0 ->
  px (dev_image img t font) x y = (220, 20, 60, 200).
Proof.
  intros Hx Hy Ht Hm Ha.
  rewrite Shape.dev_image_uncovered by assumption.
  replace ((width img - x) + (height img - y) <=? t) with true
    by (symmetry; apply Z.leb_le; exact Ht).
  destruct (px img x y) as [[[r g] b] a]. cbn in Ha. subst a.
  destruct r, g, b; vm_compute; reflexivity.
Qed.

End Pixels.

(** The float computations agree with the integer formulas on every
    width up to 4096. *)
Module Sizes.

Lemma sizes_ok_all : forallb (fun k => sizes_ok (Z.of_nat k)) (seq 0 4097) = true.
Proof. vm_compute. reflexivity. Qed.

Lemma sizes_ok_range (W : Z) : 0 <= W <= 4096 -> sizes_ok W = true.
Proof.
  intros HW. pose proof sizes_ok_all as Hall.
  rewrite forallb_forall in Hall.
  specialize (Hall (Z.to_nat W)). rewrite Z2Nat.id in Hall by lia.
  apply Hall. apply in_seq. lia.
Qed.

End Sizes.

(** ** Running the script twice *)

Module Rerun.

Lemma create_dev_icon_fs (root src dest : path) (w : world) :
  fs (fst (create_dev_icon root src dest w)) =
  match dev_icon_entry (fs w) (default_font w) src dest with
  | Some e => <[dest := e]> (fs w)
  | None => fs w
  end.
Proof.
  unfold create_dev_icon, dev_icon_entry. cbv zeta.
  unfold bind at 1, image_open.
  destruct (path_lookup (fs w) src) as [[|[opened| |]]|]; try reflexivity.
  unfold ret at 1. unfold bind at 1, of_option at 1.
  destruct (convert_rgba opened) as [img|]; [|reflexivity].
  unfold ret at 1. unfold bind at 1, of_option at 1.
  destruct (triangle_size (width img)) as [t|]; [|reflexivity].
  unfold ret at 1. unfold bind at 1. rewrite Runtime.alpha_composite_overlay.
  cbn [of_option]. unfold ret at 1. unfold bind at 1, of_option at 1.
  destruct (font_size (width img)) as [n|]; [|reflexivity].
  unfold ret at 1. unfold bind at 1. rewrite Runtime.choose_font_eq.
  destruct (first_font (fs w) n) as [f|];
    unfold bind at 1, image_save; cbn [fs print_w];
    destruct (path_lookup (fs w) dest) as [[|c]|]; try reflexivity;
    destruct (path_lookup (fs w) (removelast dest)) as [[|c']|]; reflexivity.
Qed.


Lemma process_icons_fs (root : path) (names : list string) :
  forall c w,
    fs (fst (process_icons root names c w)) = foldl (icon_step root (default_font w)) (fs w) names /\
    default_font (fst (process_icons root names c w)) = default_font w.
Proof.
  induction names as [|n rest IH]; intros c w; [split; reflexivity|].
  cbn [foldl].
  destruct (path_lookup (fs w) (join (src_dir root) n)) as [en|] eqn:Hs.
  - assert (Hs' : is_Some (path_lookup (fs w) (join (src_dir root) n)))
      by (rewrite Hs; eexists; reflexivity).
    pose proof (create_dev_icon_fs root (join (src_dir root) n) (join (dest_dir root) n) w)
      as Hfs.
    assert (Hstep : icon_step root (default_font w) (fs w) n =
                    fs (fst (create_dev_icon root (join (src_dir root) n)
                               (join (dest_dir root) n) w))).
    { rewrite Hfs. unfold icon_step, step_entry. rewrite bool_decide_true by exact Hs'.
      reflexivity. }
    rewrite Hstep.
    destruct (create_dev_icon root (join (src_dir root) n) (join (dest_dir root) n) w)
      as [w1 [[]|e|k]] eqn:Hc.
    + rewrite (Loop.process_icons_created _ _ _ _ _ _ Hs' Hc).
      destruct (Effects.create_dev_icon_Ret_out _ _ _ _ _ Hc) as [Hdf _].
      rewrite <- Hdf. apply IH.
    + rewrite (Loop.process_icons_failed _ _ _ _ _ _ _ Hs' Hc).
      destruct (Effects.create_dev_icon_Raise_inv _ _ _ _ _ _ Hc) as (_ & Hdf & _).
      destruct (IH c (print_w (MsgError n (str_exc e)) w1)) as [IH1 IH2].
      cbn [fs default_font print_w] in IH1, IH2. rewrite IH1, IH2, Hdf. split; reflexivity.
    + exfalso. exact (Loop.create_dev_icon_no_exit _ _ _ w w1 k Hc).
  - rewrite (Loop.process_icons_skip _ _ _ _ _ Hs).
    assert (Hstep : icon_step root (default_font w) (fs w) n = fs w).
    { unfold icon_step, step_entry. rewrite Hs. reflexivity. }
    rewrite Hstep. exact (IH c (print_w (MsgSkip n) w)).
Qed.

(** Folding steps that are idempotent and commute pairwise: doing all of
    them twice is doing them once. *)
Lemma foldl_comm_step {A B} (f : A -> B -> A) (x : B) (l : list B) :
  (forall y, y ∈ l -> forall a, f (f a x) y = f (f a y) x) ->
  forall a, foldl f (f a x) l = f (foldl f a l) x.
Proof.
  induction l as [|y l IH]; intros Hc a; [reflexivity|]. cbn [foldl].
  rewrite Hc by (left; reflexivity). apply IH.
  intros z Hz. apply Hc. right. exact Hz.
Qed.

Lemma foldl_idem {A B} (f : A -> B -> A) (l : list B) :
  NoDup l ->
  (forall x, x ∈ l -> forall a, f (f a x) x = f a x) ->
  (forall x y, x ∈ l -> y ∈ l -> x <> y -> forall a, f (f a x) y = f (f a y) x) ->
  forall a, foldl f (foldl f a l) l = foldl f a l.
Proof.
  induction l as [|x l IH]; intros Hnd Hi Hc a; [reflexivity|].
  apply NoDup_cons in Hnd as [Hx Hnd].
  assert (Hcx : forall y, y ∈ l -> forall a, f (f a x) y = f (f a y) x).
  { intros y Hy b. apply Hc; [left; reflexivity | right; exact Hy |].
    intros ->. contradiction. }
  cbn [foldl]. rewrite !(foldl_comm_step f x l Hcx).
  rewrite Hi by (left; reflexivity).
  rewrite IH; [reflexivity | exact Hnd | |].
  - intros y Hy b. apply Hi. right. exact Hy.
  - intros y z Hy Hz Hyz b. apply Hc; [right; exact Hy | right; exact Hz | exact Hyz].
Qed.

Lemma path_lookup_insert_ne (m : gmap path entry) (p q : path) (e : entry) :
  p <> q -> path_lookup (<[q := e]> m) p = path_lookup m p.
Proof. destruct p; [reflexivity|]. intros H. cbn [path_lookup]. apply lookup_insert_ne. congruence. Qed.

Lemma first_font_insert (m : gmap path entry) (q : path) (e : entry) (size : Z) :
  q <> font_dejavu -> q <> font_arial -> q <> font_helvetica ->
  first_font (<[q := e]> m) size = first_font m size.
Proof.
  intros H1 H2 H3. unfold first_font.
  rewrite !path_lookup_insert_ne by congruence. reflexivity.
Qed.

Lemma dest_not_font (root : path) (n : string) :
  n ∈ icons ->
  join (dest_dir root) n <> font_dejavu /\ join (dest_dir root) n <> font_arial /\
  join (dest_dir root) n <> font_helvetica.
Proof.
  intros Hn. unfold join.
  repeat split; intros H; apply (f_equal last) in H; rewrite last_snoc in H;
    cbn in H; injection H as ->; repeat (apply elem_of_cons in Hn as [Hn|Hn];
    [discriminate|]); apply elem_of_nil in Hn; exact Hn.
Qed.

Lemma dest_ne (root : path) (n1 n2 : string) :
  n1 <> n2 -> join (dest_dir root) n1 <> join (dest_dir root) n2.
Proof. intros Hne H. apply app_inj_tail in H as [_ H]. congruence. Qed.

Lemma dest_ne_dir (root : path) (n : string) : join (dest_dir root) n <> dest_dir root.
Proof.
  intros H. apply (f_equal length) in H. unfold join in H.
  rewrite length_app in H. simpl in H. lia.
Qed.

Lemma removelast_dest (root : path) (n : string) :
  removelast (join (dest_dir root) n) = dest_dir root.
Proof. apply removelast_last. Qed.

Lemma step_entry_insert (root : path) (df : Font) (m : gmap path entry) (n : string)
  (q : path) (e : entry) :
  q <> join (src_dir root) n -> q <> join (dest_dir root) n -> q <> dest_dir root ->
  q <> font_dejavu -> q <> font_arial -> q <> font_helvetica ->
  step_entry root df (<[q := e]> m) n = step_entry root df m n.
Proof.
  intros Hs Hd Hdd H1 H2 H3. unfold step_entry, dev_icon_entry. cbv zeta.
  rewrite (path_lookup_insert_ne _ (join (src_dir root) n)) by congruence.
  destruct (bool_decide _); [|reflexivity].
  destruct (path_lookup m (join (src_dir root) n)) as [[|[opened| |]]|]; try reflexivity.
  destruct (convert_rgba opened); [|reflexivity].
  destruct (triangle_size _); [|reflexivity]. destruct (font_size _); [|reflexivity].
  rewrite first_font_insert by assumption.
  rewrite !path_lookup_insert_ne by (rewrite ?removelast_dest; congruence).
  reflexivity.
Qed.

Lemma step_entry_self (root : path) (df : Font) (m : gmap path entry) (n : string)
  (e : entry) :
  n ∈ icons ->
  step_entry root df m n = Some e ->
  step_entry root df (<[join (dest_dir root) n := e]> m) n = Some e.
Proof.
  intros Hn H. destruct (dest_not_font root n Hn) as (F1 & F2 & F3).
  assert (Hsd := Shape.src_not_dest root n n).
  assert (Hnil : join (dest_dir root) n <> []) by (unfold join; destruct (dest_dir root); discriminate).
  unfold step_entry, dev_icon_entry in *. cbv zeta in *.
  rewrite (path_lookup_insert_ne _ (join (src_dir root) n)) by congruence.
  destruct (bool_decide _); [|discriminate].
  destruct (path_lookup m (join (src_dir root) n)) as [[|[opened| |]]|]; try discriminate.
  destruct (convert_rgba opened); [|discriminate].
  destruct (triangle_size _); [|discriminate]. destruct (font_size _); [|discriminate].
  rewrite first_font_insert by assumption.
  rewrite (path_lookup_insert_ne _ (removelast (join (dest_dir root) n)))
    by (rewrite removelast_dest; apply not_eq_sym, dest_ne_dir).
  rewrite Runtime.path_lookup_insert_eq by exact Hnil.
  destruct (path_lookup m (join (dest_dir root) n)) as [[|c]|].
  - discriminate.
  - destruct (path_lookup m (removelast _)) as [[|]|]; try discriminate.
    injection H as <-. reflexivity.
  - destruct (path_lookup m (removelast _)) as [[|]|]; try discriminate.
    injection H as <-. reflexivity.
Qed.

Lemma icon_step_idem (root : path) (df : Font) (n : string) :
  n ∈ icons -> forall m, icon_step root df (icon_step root df m n) n = icon_step root df m n.
Proof.
  intros Hn m. unfold icon_step at 2 3.
  destruct (step_entry root df m n) as [e|] eqn:He.
  - unfold icon_step. rewrite (step_entry_self root df m n e Hn He).
    apply insert_insert_eq.
  - unfold icon_step. rewrite He. reflexivity.
Qed.

Lemma step_entry_other (root : path) (df : Font) (m : gmap path entry) (n1 n2 : string) :
  n1 ∈ icons -> n2 ∈ icons -> n1 <> n2 ->
  step_entry root df (icon_step root df m n1) n2 = step_entry root df m n2.
Proof.
  intros H1 H2 Hne. unfold icon_step.
  destruct (step_entry root df m n1) as [e|]; [|reflexivity].
  destruct (dest_not_font root n1 H1) as (F1 & F2 & F3).
  apply step_entry_insert; try assumption.
  - apply not_eq_sym, Shape.src_not_dest.
  - apply dest_ne. exact Hne.
  - apply dest_ne_dir.
Qed.

Lemma icon_step_comm (root : path) (df : Font) (n1 n2 : string) :
  n1 ∈ icons -> n2 ∈ icons -> n1 <> n2 -> forall m,
  icon_step root df (icon_step root df m n1) n2 =
  icon_step root df (icon_step root df m n2) n1.
Proof.
  intros H1 H2 Hne m.
  assert (E1 := step_entry_other root df m n1 n2 H1 H2 Hne).
  assert (E2 := step_entry_other root df m n2 n1 H2 H1 (not_eq_sym Hne)).
  unfold icon_step at 1. rewrite E1. unfold icon_step at 3. rewrite E2.
  unfold icon_step.
  destruct (step_entry root df m n1), (step_entry root df m n2); try reflexivity.
  apply insert_insert_ne. apply dest_ne. exact (not_eq_sym Hne).
Qed.

Lemma foldl_frame (root : path) (df : Font) (p : path) (names : list string) :
  (forall n, n ∈ names -> p <> join (dest_dir root) n) ->
  forall m, path_lookup (foldl (icon_step root df) m names) p = path_lookup m p.
Proof.
  induction names as [|n rest IH]; intros Hp m; [reflexivity|]. cbn [foldl].
  rewrite IH by (intros k Hk; apply Hp; right; exact Hk).
  unfold icon_step. destruct (step_entry root df m n); [|reflexivity].
  apply path_lookup_insert_ne. apply Hp. left.
Qed.

Lemma src_dir_ne (root : path) : src_dir root <> dest_dir root /\
  forall n, src_dir root <> join (dest_dir root) n.
Proof.
  assert (Ed : dest_dir root = src_dir root ++ ["dev"])
    by (unfold dest_dir, src_dir; rewrite <- app_assoc; reflexivity).
  split; [|intros n]; intros H; apply (f_equal length) in H; unfold join in H;
    rewrite ?Ed, ?length_app in H; simpl in H; lia.
Qed.

Lemma dest_dir_nil (root : path) : dest_dir root <> [].
Proof. unfold dest_dir. destruct root; discriminate. Qed.

Lemma makedirs_ok_case (root : path) (w : world) :
  is_Some (path_lookup (fs w) (src_dir root)) ->
  path_lookup (fs w) (dest_dir root) = Some EDir \/
  (path_lookup (fs w) (src_dir root) = Some EDir /\ path_lookup (fs w) (dest_dir root) = None) ->
  os_makedirs (dest_dir root) true w =
  (mk_world (<[dest_dir root := EDir]> (fs w)) (out w) (default_font w), Ret tt).
Proof.
  intros Hs Hd.
  assert (Ed : dest_dir root = src_dir root ++ ["dev"])
    by (unfold dest_dir, src_dir; rewrite <- app_assoc; reflexivity).
  unfold os_makedirs. rewrite Ed at 1. rewrite rev_unit. cbn [makedirs_rev].
  unfold bind at 1 2, os_path_exists. rewrite rev_involutive.
  rewrite bool_decide_true by exact Hs. unfold ret at 1.
  change (rev ("dev" :: rev (src_dir root))) with (rev (rev (src_dir root)) ++ ["dev"]).
  rewrite rev_involutive, <- Ed.
  unfold try_except, os_mkdir.
  destruct Hd as [Hd|[Hs' Hd]]; rewrite Hd.
  - unfold raise, bind, os_path_isdir. rewrite Hd. cbn.
    destruct w as [m o f]. cbn in *. unfold ret.
    rewrite insert_id; [reflexivity|].
    pose proof (dest_dir_nil root) as Hne.
    destruct (dest_dir root); [congruence | exact Hd].
  - assert (Er : removelast (dest_dir root) = src_dir root)
      by (rewrite Ed; apply removelast_last).
    rewrite Er, Hs'. reflexivity.
Qed.

Lemma run_src_missing (root : path) (w : world) :
  path_lookup (fs w) (src_dir root) = None ->
  fs (fst (run_script root w)) = fs w /\
  default_font (fst (run_script root w)) = default_font w.
Proof.
  intros H. unfold run_script, main, bind, print, os_path_exists, sys_exit. simpl.
  rewrite H. simpl. split; reflexivity.
Qed.

Lemma run_makedirs_fails (root : path) (w : world) :
  is_Some (path_lookup (fs w) (src_dir root)) ->
  (exists c, path_lookup (fs w) (dest_dir root) = Some (EFile c)) \/
  (exists c, path_lookup (fs w) (src_dir root) = Some (EFile c) /\
             path_lookup (fs w) (dest_dir root) = None) ->
  fs (fst (run_script root w)) = fs w /\
  default_font (fst (run_script root w)) = default_font w.
Proof.
  intros Hs Hd.
  enough (E : exists o, fst (run_script root w) = mk_world (fs w) o (default_font w))
    by (destruct E as [o ->]; split; reflexivity).
  unfold run_script, main. unfold bind at 1 2 3 4 5, print at 1 2 3 4.
  cbn [fs out default_font].
  unfold bind at 1, os_path_exists. cbn [fs].
  rewrite bool_decide_true by exact Hs. cbn [negb].
  unfold bind at 1, ret at 1.
  unfold bind at 1.
  set (w0 := mk_world (fs w) _ (default_font w)).
  destruct (Effects.makedirs_dest_fails root w0 Hs Hd) as [e He].
  rewrite He. subst w0. eexists. reflexivity.
Qed.

Lemma run_makedirs_ok (root : path) (w : world) :
  is_Some (path_lookup (fs w) (src_dir root)) ->
  path_lookup (fs w) (dest_dir root) = Some EDir \/
  (path_lookup (fs w) (src_dir root) = Some EDir /\ path_lookup (fs w) (dest_dir root) = None) ->
  fs (fst (run_script root w)) =
    foldl (icon_step root (default_font w)) (<[dest_dir root := EDir]> (fs w)) icons /\
  default_font (fst (run_script root w)) = default_font w.
Proof.
  intros Hs Hd.
  enough (E : exists o, fst (run_script root w) =
    mk_world (foldl (icon_step root (default_font w)) (<[dest_dir root := EDir]> (fs w)) icons)
      o (default_font w))
    by (destruct E as [o ->]; split; reflexivity).
  unfold run_script, main. unfold bind at 1 2 3 4 5, print at 1 2 3 4.
  cbn [fs out default_font].
  unfold bind at 1, os_path_exists. cbn [fs].
  rewrite bool_decide_true by exact Hs. cbn [negb].
  unfold bind at 1, ret at 1.
  unfold bind at 1.
  set (w0 := mk_world (fs w) _ (default_font w)).
  assert (Hm0 : os_makedirs (dest_dir root) true w0 =
    (mk_world (<[dest_dir root := EDir]> (fs w0)) (out w0) (default_font w0), Ret tt)).
  { apply makedirs_ok_case; assumption. }
  rewrite Hm0. subst w0. cbn [fs out default_font].
  unfold bind at 1 2, print at 1 2. cbn [fs out default_font].
  unfold bind at 1.
  set (w2 := mk_world (<[dest_dir root := EDir]> (fs w)) _ (default_font w)).
  destruct (process_icons_fs root icons 0 w2) as [F1 F2].
  destruct (Loop.process_icons_Ret root icons 0 w2) as (w3 & c & Hp & _).
  rewrite Hp in F1, F2 |- *. cbn [fst] in F1, F2.
  unfold bind, print. cbn [fst fs default_font].
  subst w2. cbn [fs default_font] in F1, F2.
  rewrite <- F1, <- F2. eexists. reflexivity.
Qed.

Lemma run_files_eq (root : path) (w : world) :
  fs (fst (run_script root w)) = run_files root (default_font w) (fs w) /\
  default_font (fst (run_script root w)) = default_font w.
Proof.
  unfold run_files, makedirs_ok.
  destruct (path_lookup (fs w) (src_dir root)) as [es|] eqn:Hs.
  2: { exact (run_src_missing root w Hs). }
  assert (Hs' : is_Some (path_lookup (fs w) (src_dir root))) by (rewrite Hs; eexists; reflexivity).
  destruct (path_lookup (fs w) (dest_dir root)) as [[|cd]|] eqn:Hd.
  - destruct es; exact (run_makedirs_ok root w Hs' (or_introl Hd)).
  - destruct es; exact (run_makedirs_fails root w Hs' (or_introl (ex_intro _ cd Hd))).
  - destruct es as [|cs].
    + exact (run_makedirs_ok root w Hs' (or_intror (conj Hs Hd))).
    + exact (run_makedirs_fails root w Hs' (or_intror (ex_intro _ cs (conj Hs Hd)))).
Qed.

Lemma icons_NoDup : NoDup icons.
Proof. unfold icons. repeat constructor; set_solver. Qed.

Lemma run_files_idem (root : path) (df : Font) (m : gmap path entry) :
  run_files root df (run_files root df m) = run_files root df m.
Proof.
  destruct (src_dir_ne root) as [Hsd Hsj].
  assert (Hdj : forall n, n ∈ icons -> dest_dir root <> join (dest_dir root) n)
    by (intros n _; apply not_eq_sym, dest_ne_dir).
  assert (Hsj' : forall n, n ∈ icons -> src_dir root <> join (dest_dir root) n)
    by (intros n _; apply Hsj).
  destruct (makedirs_ok root m) eqn:Hok.
  2: { unfold run_files at 2 3. rewrite Hok. unfold run_files. rewrite Hok. reflexivity. }
  unfold run_files at 2 3. rewrite Hok.
  set (m1 := foldl (icon_step root df) (<[dest_dir root := EDir]> m) icons).
  assert (Ls : path_lookup m1 (src_dir root) = path_lookup m (src_dir root)).
  { subst m1. rewrite foldl_frame by exact Hsj'. apply path_lookup_insert_ne. exact Hsd. }
  assert (Ld : path_lookup m1 (dest_dir root) = Some EDir).
  { subst m1. rewrite foldl_frame by exact Hdj.
    apply Runtime.path_lookup_insert_eq. apply dest_dir_nil. }
  assert (Hid : <[dest_dir root := EDir]> m1 = m1).
  { apply insert_id. pose proof (dest_dir_nil root) as Hne.
    destruct (dest_dir root); [congruence | exact Ld]. }
  assert (Hok1 : makedirs_ok root m1 = true).
  { unfold makedirs_ok in *. rewrite Ls, Ld.
    destruct (path_lookup m (src_dir root)) as [[]|]; [reflexivity | reflexivity | discriminate]. }
  unfold run_files. rewrite Hok1.
  rewrite Hid. subst m1. apply foldl_idem.
  - exact icons_NoDup.
  - intros n Hn a. apply icon_step_idem. exact Hn.
  - intros n1 n2 H1 H2 Hne a. apply icon_step_comm; assumption.
Qed.

End Rerun.

(* ===================================================================== *)
(** * The claims *)
(* ===================================================================== *)

(** C1: for every source image that loads (and converts) successfully,
    the image written by [create_dev_icon] has exactly the width and the
    height of the source image. *)
Theorem C1_output_dimensions (root src dest : path) (w w' : world)
  (H : create_dev_icon root src dest w = (w', Ret tt)) :
  exists img out,
    path_lookup (fs w) src = Some (EFile (CImage img)) /\
    path_lookup (fs w') dest = Some (EFile (CImage out)) /\
    im_width out = im_width img /\ im_height out = im_height img.
Proof.
  apply Runtime.create_dev_icon_Ret_inv in H
    as (img & cimg & t & n & Hsrc & Hconv & _ & _ & Hne & Hfs).
  exists img, (to_saved (dev_image cimg t (selected_font w n))).
  rewrite Hfs, Runtime.path_lookup_insert_eq by exact Hne.
  destruct (Shape.convert_rgba_size img img cimg Hconv) as [Hw Hh].
  repeat split; [assumption | exact Hw | exact Hh].
Qed.

Lemma C1_output_dimensions_witness :
  snd (create_dev_icon Samples.root (join (src_dir Samples.root) "icon-16.png")
         (join (dest_dir Samples.root) "icon-16.png") Samples.w_ready) = Ret tt /\
  exists img out,
    path_lookup (fs Samples.w_ready) (join (src_dir Samples.root) "icon-16.png")
      = Some (EFile (CImage img)) /\
    path_lookup (fs (fst (create_dev_icon Samples.root
                          (join (src_dir Samples.root) "icon-16.png")
                          (join (dest_dir Samples.root) "icon-16.png") Samples.w_ready)))
      (join (dest_dir Samples.root) "icon-16.png") = Some (EFile (CImage out)) /\
    im_width out = im_width img /\ im_height out = im_height img.
Proof.
  assert (E : snd (create_dev_icon Samples.root (join (src_dir Samples.root) "icon-16.png")
         (join (dest_dir Samples.root) "icon-16.png") Samples.w_ready) = Ret tt)
    by (vm_compute; reflexivity).
  split; [exact E|].
  apply (C1_output_dimensions Samples.root (join (src_dir Samples.root) "icon-16.png")
           (join (dest_dir Samples.root) "icon-16.png") Samples.w_ready).
  rewrite <- E. apply surjective_pairing.
Defined.

(** C10: whatever the mode of the source image (greyscale, palette, RGB,
    ...), the image [create_dev_icon] writes is an RGBA image with four
    channels per pixel: the source was converted to RGBA before drawing. *)
Theorem C10_output_rgba (root src dest : path) (w w' : world)
  (H : create_dev_icon root src dest w = (w', Ret tt)) :
  exists img out,
    path_lookup (fs w) src = Some (EFile (CImage img)) /\
    is_Some (convert_rgba img) /\
    path_lookup (fs w') dest = Some (EFile (CImage out)) /\
    im_mode out = RGBA /\
    (forall x y, length (im_px out x y) = 4%nat).
Proof.
  apply Runtime.create_dev_icon_Ret_inv in H
    as (img & cimg & t & n & Hsrc & Hconv & _ & _ & Hne & Hfs).
  exists img, (to_saved (dev_image cimg t (selected_font w n))).
  rewrite Hfs, Runtime.path_lookup_insert_eq by exact Hne.
  destruct (Shape.to_saved_shape (dev_image cimg t (selected_font w n)))
    as (Hm & _ & _ & Hl).
  repeat split; try assumption.
  rewrite Hconv. eexists. reflexivity.
Qed.

(** On a greyscale (mode L) source. *)
Lemma C10_output_rgba_witness :
  path_lookup (fs Samples.w_ready) Samples.src16 = Some (EFile (CImage Samples.gray16)) /\
  im_mode Samples.gray16 = L None /\
  snd (create_dev_icon Samples.root Samples.src16 Samples.dest16 Samples.w_ready) = Ret tt /\
  exists img out,
    path_lookup (fs Samples.w_ready) Samples.src16 = Some (EFile (CImage img)) /\
    is_Some (convert_rgba img) /\
    path_lookup (fs (fst (create_dev_icon Samples.root Samples.src16 Samples.dest16
                            Samples.w_ready))) Samples.dest16 = Some (EFile (CImage out)) /\
    im_mode out = RGBA /\
    (forall x y, length (im_px out x y) = 4%nat).
Proof.
  assert (E : snd (create_dev_icon Samples.root Samples.src16 Samples.dest16
                     Samples.w_ready) = Ret tt) by (vm_compute; reflexivity).
  split; [vm_compute; reflexivity|]. split; [reflexivity|]. split; [exact E|].
  apply (C10_output_rgba Samples.root Samples.src16 Samples.dest16 Samples.w_ready).
  rewrite <- E. apply surjective_pairing.
Defined.

(** C5: if the source directory does not exist, the run prints the banner
    and the error message and exits with status 1; the file system is
    left exactly as it was. *)
Theorem C5_missing_source_dir (root : path) (w : world)
  (H : path_lookup (fs w) (src_dir root) = None) :
  run_script root w =
  (mk_world (fs w)
     (out w ++ [MsgRule; MsgTitle; MsgRule; MsgBlank; MsgNoSrcDir (src_dir root)])
     (default_font w), 1).
Proof.
  unfold run_script, main, bind, print, os_path_exists, sys_exit. simpl.
  rewrite H. simpl. rewrite <- !app_assoc. reflexivity.
Qed.

Lemma C5_missing_source_dir_witness :
  path_lookup (fs Samples.w_empty) (src_dir Samples.root) = None /\
  run_script Samples.root Samples.w_empty =
  (mk_world (fs Samples.w_empty)
     (out Samples.w_empty ++ [MsgRule; MsgTitle; MsgRule; MsgBlank;
                              MsgNoSrcDir (src_dir Samples.root)])
     (default_font Samples.w_empty), 1).
Proof.
  assert (E : path_lookup (fs Samples.w_empty) (src_dir Samples.root) = None)
    by reflexivity.
  split; [exact E | exact (C5_missing_source_dir Samples.root Samples.w_empty E)].
Defined.

(** C8: the destination path of every icon differs from its source path,
    [create_dev_icon] leaves the source path as it was, and so does the
    whole run. *)
Theorem C8_sources_untouched (root : path) (w : world) :
  Forall (fun n =>
    join (src_dir root) n <> join (dest_dir root) n /\
    fs (fst (create_dev_icon root (join (src_dir root) n) (join (dest_dir root) n) w))
      !! join (src_dir root) n = fs w !! join (src_dir root) n /\
    fs (fst (run_script root w)) !! join (src_dir root) n = fs w !! join (src_dir root) n)
  icons.
Proof.
  assert (Hn : forall n, n <> "dev" ->
    join (src_dir root) n <> join (dest_dir root) n /\
    fs (fst (create_dev_icon root (join (src_dir root) n) (join (dest_dir root) n) w))
      !! join (src_dir root) n = fs w !! join (src_dir root) n /\
    fs (fst (run_script root w)) !! join (src_dir root) n = fs w !! join (src_dir root) n).
  { intros n Hdev. split; [apply Shape.src_not_dest|]. split.
    - apply Runtime.frame_create_dev_icon. apply Shape.src_not_dest.
    - rewrite Shape.run_script_fst. apply Runtime.frame_main.
      apply Shape.src_not_main_write. exact Hdev. }
  repeat constructor; apply Hn; discriminate.
Qed.

(** C2: the leg length is [int(W * 0.6)] (a nonnegative integer for every
    width an image can have, 76 for W = 128); the vertices are (W,H),
    (W-t,H), (W,H-t); the fill is (220,20,60,200), and inside the image the
    overlay is that colour exactly on the closed triangle. *)
Theorem C2_triangle_geometry (W H : Z) (HW : 0 <= W < 2 ^ 53) :
  triangle_size 128 = Some 76 /\
  crimson = (220, 20, 60, 200) /\
  exists t,
    triangle_size W = PyFloat.int_mul W PyFloat.lit_0_6 /\
    triangle_size W = Some t /\ 0 <= t /\
    triangle W H t = [(W, H); (W - t, H); (W, H - t)] /\
    forall x y, 0 <= x < W -> 0 <= y < H ->
      px (dev_overlay W H t) x y =
      if (W - x) + (H - y) <=? t then (220, 20, 60, 200) else (255, 0, 0, 0).
Proof.
  split; [vm_compute; reflexivity|]. split; [reflexivity|].
  destruct (FloatFacts.int_mul_bounded W 5404319552844595 (-53) HW)
    as (t & Ht & Ht0); [lia | lia |].
  rewrite <- FloatFacts.lit_0_6_eq in Ht.
  exists t. split; [reflexivity|]. split; [exact Ht|]. split; [exact Ht0|].
  split; [reflexivity|]. intros x y Hx Hy. apply Shape.overlay_pixel; assumption.
Qed.

Lemma C2_triangle_geometry_witness :
  0 <= 128 < 2 ^ 53 /\
  (triangle_size 128 = Some 76 /\
   crimson = (220, 20, 60, 200) /\
   exists t,
     triangle_size 128 = PyFloat.int_mul 128 PyFloat.lit_0_6 /\
     triangle_size 128 = Some t /\ 0 <= t /\
     triangle 128 128 t = [(128, 128); (128 - t, 128); (128, 128 - t)] /\
     forall x y, 0 <= x < 128 -> 0 <= y < 128 ->
       px (dev_overlay 128 128 t) x y =
       if (128 - x) + (128 - y) <=? t then (220, 20, 60, 200) else (255, 0, 0, 0)).
Proof.
  assert (HW : 0 <= 128 < 2 ^ 53) by lia.
  split; [exact HW | exact (C2_triangle_geometry 128 128 HW)].
Defined.

(** C3: the text is drawn with the ink (255,255,255,255) at the position
    computed from the width and height of [textbbox((0, 0), "DEV")] only.
    Its rendered box is that bbox shifted there, so its right and bottom
    edges are at W-2+l and H-2+t, where (l, t) is the top-left corner of the
    bbox at the origin. For a 128x128 icon and a TrueType face whose origin
    bbox is (3, 7, 72, 30) the text is placed at (57, 103) and its box ends
    at (129, 133), not at (126, 126). *)
Theorem C3_text_box_offset (W H : Z) (font : Font) :
  white = (255, 255, 255, 255) /\
  (let '(l, t, r, b) := bbox0 font "DEV" in
   textbbox (text_position W H "DEV" font) "DEV" font =
   (W - 2 - (r - l) + l, H - 2 - (b - t) + t, W - 2 + l, H - 2 + t)) /\
  text_position 128 128 "DEV" Samples.truetype_32 = (57, 103) /\
  textbbox (text_position 128 128 "DEV" Samples.truetype_32) "DEV"
    Samples.truetype_32 = (60, 110, 129, 133).
Proof.
  split; [reflexivity|]. split.
  - unfold text_position, textbbox. simpl.
    destruct (bbox0 font "DEV") as [[[l t] r] b]. simpl. f_equal; [f_equal; [f_equal|]|]; ring.
  - split; reflexivity.
Qed.

(** C4: the font size is [max(6, int(W * 0.25))] (6, 12 and 32 for the
    widths 16, 48 and 128, at least 6 for every width an image can have);
    [choose_font] takes the first of DejaVu Sans Bold, Arial Bold and
    Helvetica that loads, else the default font after one warning, never
    raises and changes no file. *)
Theorem C4_font_choice (W size : Z) (w : world) :
  font_size W = option_map (Z.max 6) (PyFloat.int_mul W PyFloat.lit_0_25) /\
  (0 <= W < 2 ^ 53 -> exists n, font_size W = Some n /\ 6 <= n) /\
  font_size 16 = Some 6 /\ font_size 48 = Some 12 /\ font_size 128 = Some 32 /\
  first_font (fs w) size =
    match path_lookup (fs w) font_dejavu with
    | Some (EFile (CFont face)) => Some (face size)
    | _ =>
        match path_lookup (fs w) font_arial with
        | Some (EFile (CFont face)) => Some (face size)
        | _ =>
            match path_lookup (fs w) font_helvetica with
            | Some (EFile (CFont face)) => Some (face size)
            | _ => None
            end
        end
    end /\
  choose_font size w =
    match first_font (fs w) size with
    | Some f => (w, Ret f)
    | None => (print_w MsgFontWarning w, Ret (default_font w))
    end.
Proof.
  split; [unfold font_size; destruct (PyFloat.int_mul W PyFloat.lit_0_25); reflexivity|].
  split.
  { intros HW.
    destruct (FloatFacts.int_mul_bounded W 4503599627370496 (-54) HW)
      as (n & Hn & _); [lia | lia |].
    rewrite <- FloatFacts.lit_0_25_eq in Hn.
    exists (Z.max 6 n). unfold font_size. rewrite Hn. split; [reflexivity | lia]. }
  split; [vm_compute; reflexivity|]. split; [vm_compute; reflexivity|].
  split; [vm_compute; reflexivity|]. split; [reflexivity|].
  apply Runtime.choose_font_eq.
Qed.

(** C9 (as stated): the top-left quadrant of the output is not always the
    source's. A black 16 px RGBA icon with no TrueType font available gets
    the "DEV" label of Pillow's bitmap font (box 18 x 11) at (-4, 3); the
    top bar of its "E" (row 3 of the glyphs, text columns 7 to 9) lands on
    row 6, columns 3 to 5, and whitens pixel (4, 6) of the top-left
    quadrant. *)
Lemma C9_top_left_counterexample :
  ~ (forall (root src dest : path) (w w' : world) (img out : image),
       create_dev_icon root src dest w = (w', Ret tt) ->
       path_lookup (fs w) src = Some (EFile (CImage img)) ->
       path_lookup (fs w') dest = Some (EFile (CImage out)) ->
       forall x y, 0 <= x < im_width img / 2 -> 0 <= y < im_height img / 2 ->
         im_px out x y = im_px img x y).
Proof.
  intros Hall.
  assert (Hsnd : snd (create_dev_icon Samples.root Samples.src16 Samples.dest16
                        Samples.w_pil) = Ret tt) by (vm_compute; reflexivity).
  assert (Hr : create_dev_icon Samples.root Samples.src16 Samples.dest16 Samples.w_pil =
               (fst (create_dev_icon Samples.root Samples.src16 Samples.dest16
                       Samples.w_pil), Ret tt))
    by (rewrite <- Hsnd; apply surjective_pairing).
  pose proof (Runtime.create_dev_icon_Ret_inv _ _ _ _ _ Hr)
    as (img & cimg & t & n & Hsrc & Hconv & Ht & Hn & Hne & Hfs).
  assert (Hlk := Runtime.path_lookup_insert_eq (fs Samples.w_pil) Samples.dest16
    (EFile (CImage (to_saved (dev_image cimg t (selected_font Samples.w_pil n))))) Hne).
  rewrite <- Hfs in Hlk.
  pose proof (Hall _ _ _ _ _ _ _ Hr Hsrc Hlk 4 6) as Hpx.
  assert (Himg : img = Samples.solid 16 Samples.black).
  { assert (E : path_lookup (fs Samples.w_pil) Samples.src16 =
               Some (EFile (CImage (Samples.solid 16 Samples.black))))
      by (vm_compute; reflexivity).
    rewrite E in Hsrc. congruence. }
  subst img.
  vm_compute in Hconv. injection Hconv as <-.
  vm_compute in Ht. injection Ht as <-.
  vm_compute in Hn. injection Hn as <-.
  assert (Hx : 0 <= 4 < im_width (Samples.solid 16 Samples.black) / 2)
    by (vm_compute; split; congruence).
  assert (Hy : 0 <= 6 < im_height (Samples.solid 16 Samples.black) / 2)
    by (vm_compute; split; congruence).
  specialize (Hpx Hx Hy). vm_compute in Hpx. discriminate Hpx.
Qed.

(** C9 (amended): every output pixel that the mask of the drawn "DEV"
    label leaves uncovered is, outside the overlay triangle, the
    RGBA-converted source pixel and, inside it, the Pillow alpha composite
    of (220,20,60,200) over that pixel. *)
Theorem C9_pixels_outside_label (root src dest : path) (w w' : world)
  (H : create_dev_icon root src dest w = (w', Ret tt)) :
  exists img cimg t n out,
    path_lookup (fs w) src = Some (EFile (CImage img)) /\
    convert_rgba img = Some cimg /\
    triangle_size (width cimg) = Some t /\
    font_size (width cimg) = Some n /\
    path_lookup (fs w') dest = Some (EFile (CImage out)) /\
    forall x y, 0 <= x < width cimg -> 0 <= y < height cimg ->
      mask (selected_font w n) "DEV"
        (x - fst (text_position (width cimg) (height cimg) "DEV" (selected_font w n)))
        (y - snd (text_position (width cimg) (height cimg) "DEV" (selected_font w n)))
        = 0 ->
      im_px out x y =
      rgba_list (if (width cimg - x) + (height cimg - y) <=? t
                 then composite_px (px cimg x y) (220, 20, 60, 200)
                 else px cimg x y).
Proof.
  apply Runtime.create_dev_icon_Ret_inv in H
    as (img & cimg & t & n & Hsrc & Hconv & Ht & Hn & Hne & Hfs).
  exists img, cimg, t, n, (to_saved (dev_image cimg t (selected_font w n))).
  rewrite Hfs, Runtime.path_lookup_insert_eq by exact Hne.
  repeat split; try assumption.
  intros x y Hx Hy Hm. simpl im_px. f_equal.
  apply Shape.dev_image_uncovered; assumption.
Qed.

Lemma C9_pixels_outside_label_witness :
  snd (create_dev_icon Samples.root Samples.src16 Samples.dest16 Samples.w_rgba) = Ret tt /\
  exists img cimg t n out,
    path_lookup (fs Samples.w_rgba) Samples.src16 = Some (EFile (CImage img)) /\
    convert_rgba img = Some cimg /\
    triangle_size (width cimg) = Some t /\
    font_size (width cimg) = Some n /\
    path_lookup (fs (fst (create_dev_icon Samples.root Samples.src16 Samples.dest16
                            Samples.w_rgba))) Samples.dest16 = Some (EFile (CImage out)) /\
    forall x y, 0 <= x < width cimg -> 0 <= y < height cimg ->
      mask (selected_font Samples.w_rgba n) "DEV"
        (x - fst (text_position (width cimg) (height cimg) "DEV"
                   (selected_font Samples.w_rgba n)))
        (y - snd (text_position (width cimg) (height cimg) "DEV"
                   (selected_font Samples.w_rgba n)))
        = 0 ->
      im_px out x y =
      rgba_list (if (width cimg - x) + (height cimg - y) <=? t
                 then composite_px (px cimg x y) (220, 20, 60, 200)
                 else px cimg x y).
Proof.
  assert (E : snd (create_dev_icon Samples.root Samples.src16 Samples.dest16
                     Samples.w_rgba) = Ret tt) by (vm_compute; reflexivity).
  split; [exact E|].
  apply (C9_pixels_outside_label Samples.root Samples.src16 Samples.dest16 Samples.w_rgba).
  rewrite <- E. apply surjective_pairing.
Defined.

(** C6: an icon whose source file is missing is skipped with a warning
    naming it, the count is unchanged and the loop goes on with the next
    icons; the loop itself never fails, and a run whose source directory
    exists (with the destination absent or a directory) exits with status 0.
    With icon-48.png missing and the three other icons present, the run
    prints the skip message for icon-48.png, reports 3/4 and exits with 0. *)
Theorem C6_missing_icon_skipped (root : path) (n : string) (rest : list string)
  (c : Z) (w : world)
  (Hmiss : path_lookup (fs w) (join (src_dir root) n) = None) :
  process_icons root (n :: rest) c w = process_icons root rest c (print_w (MsgSkip n) w) /\
  (forall w0, path_lookup (fs w0) (src_dir root) = Some EDir ->
     path_lookup (fs w0) (dest_dir root) = None \/
     path_lookup (fs w0) (dest_dir root) = Some EDir ->
     snd (run_script root w0) = 0) /\
  path_lookup (fs Samples.w_missing48) (join (src_dir Samples.root) "icon-48.png") = None /\
  snd (run_script Samples.root Samples.w_missing48) = 0 /\
  out (fst (run_script Samples.root Samples.w_missing48)) =
  [MsgRule; MsgTitle; MsgRule; MsgBlank;
   MsgDestDir ["chrome-extension-wxt"; "public"; "dev"]; MsgBlank;
   MsgFontWarning; MsgCreated ["chrome-extension-wxt"; "public"; "dev"; "icon-16.png"];
   MsgFontWarning; MsgCreated ["chrome-extension-wxt"; "public"; "dev"; "icon.png"];
   MsgSkip "icon-48.png";
   MsgFontWarning; MsgCreated ["chrome-extension-wxt"; "public"; "dev"; "icon-128.png"];
   MsgBlank; MsgRule; MsgDone 3 4; MsgRule].
Proof.
  split; [exact (Loop.process_icons_skip root n rest c w Hmiss)|].
  split.
  { intros w0 Hs Hd. destruct (Loop.main_completes root w0 Hs Hd) as (w1 & c1 & _ & _ & E).
    rewrite E. reflexivity. }
  split; [vm_compute; reflexivity|].
  split; vm_compute; reflexivity.
Qed.

Lemma C6_missing_icon_skipped_witness :
  path_lookup (fs Samples.w_missing48) (join (src_dir Samples.root) "icon-48.png") = None /\
  process_icons Samples.root ["icon-48.png"; "icon-128.png"] 2 Samples.w_missing48 =
  process_icons Samples.root ["icon-128.png"] 2
    (print_w (MsgSkip "icon-48.png") Samples.w_missing48).
Proof.
  assert (H : path_lookup (fs Samples.w_missing48)
                (join (src_dir Samples.root) "icon-48.png") = None)
    by (vm_compute; reflexivity).
  split; [exact H|].
  exact (proj1 (C6_missing_icon_skipped Samples.root "icon-48.png" ["icon-128.png"] 2
                  Samples.w_missing48 H)).
Defined.

(** C7: an exception raised by [create_dev_icon] for an existing source is
    caught in the loop: the message names the icon and carries [str(e)],
    the count is unchanged and the loop goes on with the state the failed
    call left. The loop never raises or exits, and a run whose source
    directory exists (with the destination absent or a directory) exits
    with status 0. *)
Theorem C7_icon_error_caught (root : path) (n : string) (rest : list string)
  (c : Z) (w w1 : world) (e : exc)
  (Hex : is_Some (path_lookup (fs w) (join (src_dir root) n)))
  (Herr : create_dev_icon root (join (src_dir root) n) (join (dest_dir root) n) w
          = (w1, Raise e)) :
  process_icons root (n :: rest) c w =
  process_icons root rest c (print_w (MsgError n (str_exc e)) w1) /\
  (forall names c0 w0, exists w' c', process_icons root names c0 w0 = (w', Ret c')) /\
  (forall w0, path_lookup (fs w0) (src_dir root) = Some EDir ->
     path_lookup (fs w0) (dest_dir root) = None \/
     path_lookup (fs w0) (dest_dir root) = Some EDir ->
     snd (run_script root w0) = 0).
Proof.
  split; [exact (Loop.process_icons_failed root n rest c w w1 e Hex Herr)|].
  split.
  { intros names c0 w0. destruct (Loop.process_icons_Ret root names c0 w0)
      as (w' & c' & E & _). exists w', c'. exact E. }
  intros w0 Hs Hd. destruct (Loop.main_completes root w0 Hs Hd) as (w2 & c2 & _ & _ & E).
  rewrite E. reflexivity.
Qed.

(** On the undecodable icon.png of [w_broken]. *)
Lemma C7_icon_error_caught_witness :
  is_Some (path_lookup (fs Samples.w_broken) (join (src_dir Samples.root) "icon.png")) /\
  create_dev_icon Samples.root (join (src_dir Samples.root) "icon.png")
    (join (dest_dir Samples.root) "icon.png") Samples.w_broken =
  (Samples.w_broken,
   Raise (UnidentifiedImageError (join (src_dir Samples.root) "icon.png"))) /\
  process_icons Samples.root ["icon.png"; "icon-48.png"; "icon-128.png"] 1 Samples.w_broken =
  process_icons Samples.root ["icon-48.png"; "icon-128.png"] 1
    (print_w (MsgError "icon.png"
       (str_exc (UnidentifiedImageError (join (src_dir Samples.root) "icon.png"))))
       Samples.w_broken).
Proof.
  assert (Hex : is_Some (path_lookup (fs Samples.w_broken)
                           (join (src_dir Samples.root) "icon.png")))
    by (eexists; vm_compute; reflexivity).
  assert (Herr : create_dev_icon Samples.root (join (src_dir Samples.root) "icon.png")
    (join (dest_dir Samples.root) "icon.png") Samples.w_broken =
    (Samples.w_broken,
     Raise (UnidentifiedImageError (join (src_dir Samples.root) "icon.png")))).
  { unfold create_dev_icon, bind at 1, image_open.
    assert (E : path_lookup (fs Samples.w_broken) (join (src_dir Samples.root) "icon.png")
                = Some (EFile CBytes)) by (vm_compute; reflexivity).
    rewrite E. reflexivity. }
  split; [exact Hex|]. split; [exact Herr|].
  exact (proj1 (C7_icon_error_caught Samples.root "icon.png" ["icon-48.png"; "icon-128.png"]
                  1 Samples.w_broken Samples.w_broken _ Hex Herr)).
Defined.

(* ===================================================================== *)
(** * Further properties of the code *)
(* ===================================================================== *)

(** X3: a run whose source directory exists (with the destination absent
    or a directory) prints the banner and the destination directory, the
    lines of the loop, then the summary [MsgDone c 4]; c is the number of
    "created" lines the loop printed, between 0 and 4, and the exit status
    is 0. *)
Theorem X_summary_counts_created (root : path) (w : world)
  (Hs : path_lookup (fs w) (src_dir root) = Some EDir)
  (Hd : path_lookup (fs w) (dest_dir root) = None \/
        path_lookup (fs w) (dest_dir root) = Some EDir) :
  snd (run_script root w) = 0 /\
  exists L c,
    out (fst (run_script root w)) =
      out w ++ [MsgRule; MsgTitle; MsgRule; MsgBlank;
                MsgDestDir ["chrome-extension-wxt"; "public"; "dev"]; MsgBlank]
      ++ L ++ [MsgBlank; MsgRule; MsgDone c 4; MsgRule] /\
    c = count_created L /\ 0 <= c <= 4.
Proof.
  destruct (Loop.main_completes root w Hs Hd) as (w1 & c & Hp & Hb & E).
  rewrite E. split; [reflexivity|].
  destruct (Effects.process_icons_out _ _ _ _ _ _ Hp) as (_ & L & HL & Hc).
  exists L, c. cbn [fst out]. rewrite HL. cbn [out]. rewrite Effects.relpath_dest_dir.
  split; [rewrite <- !app_assoc; reflexivity|]. split; lia.
Qed.

(** X4: if [os.makedirs(dest_dir, exist_ok=True)] fails (the destination
    is a regular file, or the source path is a regular file and the
    destination is absent), the run stops there with exit status 1 after
    the banner, and no file is written. *)
Theorem X_makedirs_failure_exits (root : path) (w : world)
  (Hs : is_Some (path_lookup (fs w) (src_dir root)))
  (Hd : (exists c, path_lookup (fs w) (dest_dir root) = Some (EFile c)) \/
        (exists c, path_lookup (fs w) (src_dir root) = Some (EFile c) /\
                   path_lookup (fs w) (dest_dir root) = None)) :
  run_script root w =
  (mk_world (fs w) (out w ++ [MsgRule; MsgTitle; MsgRule; MsgBlank]) (default_font w), 1).
Proof.
  unfold run_script, main. unfold bind at 1 2 3 4 5, print at 1 2 3 4.
  cbn [fs out default_font].
  unfold bind at 1, os_path_exists. cbn [fs].
  rewrite bool_decide_true by exact Hs. cbn [negb].
  unfold bind at 1, ret at 1.
  unfold bind at 1.
  set (w0 := mk_world (fs w) _ (default_font w)).
  destruct (Effects.makedirs_dest_fails root w0 Hs Hd) as [e He].
  rewrite He. subst w0. cbn [exit_status]. rewrite <- !app_assoc. reflexivity.
Qed.

(** X5: a run changes no path other than [dest_dir], its ancestors and the
    four destination files; when the source directory exists (and the
    destination is absent or a directory), [dest_dir] is a directory
    afterwards. *)
Theorem X_run_writes_only (root : path) (w : world) :
  (forall p, ~ main_writes root p -> fs (fst (run_script root w)) !! p = fs w !! p) /\
  (path_lookup (fs w) (src_dir root) = Some EDir ->
   path_lookup (fs w) (dest_dir root) = None \/
   path_lookup (fs w) (dest_dir root) = Some EDir ->
   path_lookup (fs (fst (run_script root w))) (dest_dir root) = Some EDir).
Proof.
  split.
  - intros p Hp. rewrite Shape.run_script_fst. apply Runtime.frame_main. exact Hp.
  - intros Hs Hd. destruct (Loop.main_completes root w Hs Hd) as (w1 & c & Hp & _ & E).
    rewrite E. cbn [fst fs].
    assert (Hne : dest_dir root <> []) by (unfold dest_dir; destruct root; discriminate).
    assert (Hf := Runtime.frame_process_icons root icons 0).
    specialize (Hf (mk_world (<[dest_dir root := EDir]> (fs w))
         (out w ++ [MsgRule; MsgTitle; MsgRule; MsgBlank;
                    MsgDestDir (relpath (dest_dir root) root); MsgBlank])
         (default_font w)) (dest_dir root)).
    rewrite Hp in Hf. cbn [fst fs] in Hf.
    destruct (dest_dir root) as [|d ds] eqn:Edd; [congruence|]. cbn [path_lookup].
    rewrite Hf, lookup_insert_eq; [reflexivity|].
    intros (n & _ & Hn). apply (f_equal length) in Hn. rewrite <- Edd in Hn.
    unfold join in Hn. rewrite length_app in Hn. simpl in Hn. lia.
Qed.

Lemma X_summary_counts_created_witness :
  path_lookup (fs Samples.w_missing48) (src_dir Samples.root) = Some EDir /\
  path_lookup (fs Samples.w_missing48) (dest_dir Samples.root) = None /\
  (snd (run_script Samples.root Samples.w_missing48) = 0 /\
   exists L c,
     out (fst (run_script Samples.root Samples.w_missing48)) =
       out Samples.w_missing48 ++ [MsgRule; MsgTitle; MsgRule; MsgBlank;
                 MsgDestDir ["chrome-extension-wxt"; "public"; "dev"]; MsgBlank]
       ++ L ++ [MsgBlank; MsgRule; MsgDone c 4; MsgRule] /\
     c = count_created L /\ 0 <= c <= 4).
Proof.
  assert (Hs : path_lookup (fs Samples.w_missing48) (src_dir Samples.root) = Some EDir)
    by (vm_compute; reflexivity).
  assert (Hd : path_lookup (fs Samples.w_missing48) (dest_dir Samples.root) = None)
    by (vm_compute; reflexivity).
  split; [exact Hs|]. split; [exact Hd|].
  exact (X_summary_counts_created Samples.root Samples.w_missing48 Hs (or_introl Hd)).
Defined.

Lemma X_makedirs_failure_exits_witness :
  path_lookup (fs Samples.w_dest_file) (dest_dir Samples.root) = Some (EFile CBytes) /\
  run_script Samples.root Samples.w_dest_file =
  (mk_world (fs Samples.w_dest_file)
     (out Samples.w_dest_file ++ [MsgRule; MsgTitle; MsgRule; MsgBlank])
     (default_font Samples.w_dest_file), 1).
Proof.
  assert (Hs : is_Some (path_lookup (fs Samples.w_dest_file) (src_dir Samples.root)))
    by (eexists; vm_compute; reflexivity).
  assert (Hd : path_lookup (fs Samples.w_dest_file) (dest_dir Samples.root)
               = Some (EFile CBytes)) by (vm_compute; reflexivity).
  split; [exact Hd|].
  exact (X_makedirs_failure_exits Samples.root Samples.w_dest_file Hs
           (or_introl (ex_intro _ CBytes Hd))).
Defined.

(** X1: when the source path is missing, a directory or not an image, or
    is an image that [convert('RGBA')] rejects, [create_dev_icon] raises
    before it draws, saves or prints anything: the world is unchanged. *)
Theorem X_bad_source_raises_untouched (root src dest : path) (w : world)
  (H : match path_lookup (fs w) src with
       | Some (EFile (CImage img)) => convert_rgba img = None
       | _ => True
       end) :
  exists e, create_dev_icon root src dest w = (w, Raise e).
Proof.
  unfold create_dev_icon, bind at 1, image_open.
  destruct (path_lookup (fs w) src) as [[|[img| |]]|]; try (eexists; reflexivity).
  unfold ret at 1. unfold bind at 1, of_option at 1. rewrite H.
  eexists. reflexivity.
Qed.

(** On a source file that is not an image. *)
Lemma X_bad_source_raises_untouched_witness :
  path_lookup (fs Samples.w_broken) (join (src_dir Samples.root) "icon.png")
    = Some (EFile CBytes) /\
  exists e, create_dev_icon Samples.root (join (src_dir Samples.root) "icon.png")
              (join (dest_dir Samples.root) "icon.png") Samples.w_broken
            = (Samples.w_broken, Raise e).
Proof.
  assert (E : path_lookup (fs Samples.w_broken) (join (src_dir Samples.root) "icon.png")
              = Some (EFile CBytes)) by (vm_compute; reflexivity).
  split; [exact E|].
  apply X_bad_source_raises_untouched. rewrite E. exact I.
Defined.

(** X2: when [create_dev_icon] returns, it has written an image at the
    destination and changed no other path, and it printed the destination
    relative to the project root, preceded by the font warning exactly
    when none of the three system fonts loaded at the font size; for the
    destination of an icon [n] that is chrome-extension-wxt/public/dev/[n]. *)
Theorem X_created_icon_effects (root src dest : path) (w w' : world)
  (H : create_dev_icon root src dest w = (w', Ret tt)) :
  (exists img, path_lookup (fs w') dest = Some (EFile (CImage img))) /\
  (forall p, p <> dest -> fs w' !! p = fs w !! p) /\
  (exists img cimg n,
     path_lookup (fs w) src = Some (EFile (CImage img)) /\
     convert_rgba img = Some cimg /\
     font_size (width cimg) = Some n /\
     out w' = out w ++ match first_font (fs w) n with
                       | Some _ => []
                       | None => [MsgFontWarning]
                       end ++ [MsgCreated (relpath dest root)]) /\
  (forall n, relpath (join (dest_dir root) n) root =
             ["chrome-extension-wxt"; "public"; "dev"; n]).
Proof.
  pose proof (Effects.create_dev_icon_Ret_msgs _ _ _ _ _ H) as Ho.
  apply Runtime.create_dev_icon_Ret_inv in H
    as (img & cimg & t & n & _ & _ & _ & _ & Hne & Hfs).
  split.
  { eexists. rewrite Hfs. apply Runtime.path_lookup_insert_eq. exact Hne. }
  split.
  { intros p Hp. rewrite Hfs. apply lookup_insert_ne. congruence. }
  split; [exact Ho|].
  intros n'. unfold relpath, join, dest_dir. rewrite <- app_assoc. apply drop_app_length.
Qed.

Lemma X_created_icon_effects_witness :
  snd (create_dev_icon Samples.root Samples.src16 Samples.dest16 Samples.w_rgba) = Ret tt /\
  (exists img, path_lookup (fs (fst (create_dev_icon Samples.root Samples.src16
                   Samples.dest16 Samples.w_rgba))) Samples.dest16 = Some (EFile (CImage img))) /\
  (forall p, p <> Samples.dest16 ->
     fs (fst (create_dev_icon Samples.root Samples.src16 Samples.dest16 Samples.w_rgba)) !! p
     = fs Samples.w_rgba !! p) /\
  (exists img cimg n,
     path_lookup (fs Samples.w_rgba) Samples.src16 = Some (EFile (CImage img)) /\
     convert_rgba img = Some cimg /\
     font_size (width cimg) = Some n /\
     out (fst (create_dev_icon Samples.root Samples.src16 Samples.dest16 Samples.w_rgba))
       = out Samples.w_rgba ++ match first_font (fs Samples.w_rgba) n with
                               | Some _ => []
                               | None => [MsgFontWarning]
                               end ++ [MsgCreated (relpath Samples.dest16 Samples.root)]) /\
  (forall n, relpath (join (dest_dir Samples.root) n) Samples.root =
             ["chrome-extension-wxt"; "public"; "dev"; n]).
Proof.
  assert (E : snd (create_dev_icon Samples.root Samples.src16 Samples.dest16
                     Samples.w_rgba) = Ret tt) by (vm_compute; reflexivity).
  split; [exact E|].
  apply (X_created_icon_effects Samples.root Samples.src16 Samples.dest16 Samples.w_rgba).
  rewrite <- E. apply surjective_pairing.
Defined.

(** X6: for every width from 0 to 4096 the float expressions of the code
    give the integer results: the leg length [int(W * 0.6)] is
    [3 * W / 5] (rounded down) and the font size [max(6, int(W * 0.25))]
    is [max(6, W / 4)]. *)
Theorem X_sizes_exact (W : Z) (HW : 0 <= W <= 4096) :
  triangle_size W = Some (3 * W / 5) /\ font_size W = Some (Z.max 6 (W / 4)).
Proof.
  pose proof (Sizes.sizes_ok_range W HW) as H. unfold sizes_ok in H.
  apply andb_true_iff in H as [H1 H2].
  apply bool_decide_eq_true in H1, H2. split; assumption.
Qed.

Lemma X_sizes_exact_witness :
  0 <= 1000 <= 4096 /\
  (triangle_size 1000 = Some (3 * 1000 / 5) /\ font_size 1000 = Some (Z.max 6 (1000 / 4))).
Proof.
  assert (HW : 0 <= 1000 <= 4096) by lia.
  split; [exact HW | exact (X_sizes_exact 1000 HW)].
Defined.

(** X7: a pixel that is opaque in the RGBA-converted source is opaque in
    the written icon; in particular a source without an alpha channel
    (mode L or RGB) and without a transparency key gives a fully opaque
    icon. *)
Theorem X_opaque_stays_opaque (root src dest : path) (w w' : world)
  (H : create_dev_icon root src dest w = (w', Ret tt)) :
  exists img cimg out,
    path_lookup (fs w) src = Some (EFile (CImage img)) /\
    convert_rgba img = Some cimg /\
    path_lookup (fs w') dest = Some (EFile (CImage out)) /\
    (forall x y, alpha (px cimg x y) = 255 -> nth 3 (im_px out x y) 0 = 255) /\
    (im_mode img = L None \/ im_mode img = RGB None ->
     forall x y, nth 3 (im_px out x y) 0 = 255).
Proof.
  apply Runtime.create_dev_icon_Ret_inv in H
    as (img & cimg & t & n & Hsrc & Hconv & _ & _ & Hne & Hfs).
  exists img, cimg, (to_saved (dev_image cimg t (selected_font w n))).
  rewrite Hfs, Runtime.path_lookup_insert_eq by exact Hne.
  assert (Hop : forall x y, alpha (px cimg x y) = 255 ->
            nth 3 (im_px (to_saved (dev_image cimg t (selected_font w n))) x y) 0 = 255).
  { intros x y Ha. cbn [im_px to_saved].
    pose proof (Pixels.dev_image_opaque cimg t (selected_font w n) x y Ha) as Hb.
    destruct (px (dev_image cimg t (selected_font w n)) x y) as [[[r g] b] a].
    exact Hb. }
  split; [exact Hsrc|]. split; [exact Hconv|]. split; [reflexivity|].
  split; [exact Hop|].
  intros Hm x y. apply Hop.
  unfold convert_rgba in Hconv.
  destruct Hm as [Hm|Hm]; rewrite Hm in Hconv; cbn in Hconv;
    injection Hconv as <-; reflexivity.
Qed.

(** On a greyscale source. *)
Lemma X_opaque_stays_opaque_witness :
  snd (create_dev_icon Samples.root Samples.src16 Samples.dest16 Samples.w_ready) = Ret tt /\
  exists img cimg out,
    path_lookup (fs Samples.w_ready) Samples.src16 = Some (EFile (CImage img)) /\
    convert_rgba img = Some cimg /\
    path_lookup (fs (fst (create_dev_icon Samples.root Samples.src16 Samples.dest16
                            Samples.w_ready))) Samples.dest16 = Some (EFile (CImage out)) /\
    (forall x y, alpha (px cimg x y) = 255 -> nth 3 (im_px out x y) 0 = 255) /\
    (im_mode img = L None \/ im_mode img = RGB None ->
     forall x y, nth 3 (im_px out x y) 0 = 255).
Proof.
  assert (E : snd (create_dev_icon Samples.root Samples.src16 Samples.dest16
                     Samples.w_ready) = Ret tt) by (vm_compute; reflexivity).
  split; [exact E|].
  apply (X_opaque_stays_opaque Samples.root Samples.src16 Samples.dest16 Samples.w_ready).
  rewrite <- E. apply surjective_pairing.
Defined.

(** X8: every pixel that the glyph mask of the "DEV" label covers fully
    (coverage 255) is opaque white in the written icon, whatever the
    source and the overlay there. *)
Theorem X_glyph_pixels_white (root src dest : path) (w w' : world)
  (H : create_dev_icon root src dest w = (w', Ret tt)) :
  exists img cimg n out,
    path_lookup (fs w) src = Some (EFile (CImage img)) /\
    convert_rgba img = Some cimg /\
    font_size (width cimg) = Some n /\
    path_lookup (fs w') dest = Some (EFile (CImage out)) /\
    forall x y,
      mask (selected_font w n) "DEV"
        (x - fst (text_position (width cimg) (height cimg) "DEV" (selected_font w n)))
        (y - snd (text_position (width cimg) (height cimg) "DEV" (selected_font w n)))
        = 255 ->
      im_px out x y = [255; 255; 255; 255].
Proof.
  apply Runtime.create_dev_icon_Ret_inv in H
    as (img & cimg & t & n & Hsrc & Hconv & _ & Hn & Hne & Hfs).
  exists img, cimg, n, (to_saved (dev_image cimg t (selected_font w n))).
  rewrite Hfs, Runtime.path_lookup_insert_eq by exact Hne.
  repeat split; try assumption.
  intros x y Hm. cbn [im_px to_saved].
  rewrite (Pixels.dev_image_glyph cimg t (selected_font w n) x y Hm). reflexivity.
Qed.

Lemma X_glyph_pixels_white_witness :
  snd (create_dev_icon Samples.root Samples.src16 Samples.dest16 Samples.w_rgba) = Ret tt /\
  exists img cimg n out,
    path_lookup (fs Samples.w_rgba) Samples.src16 = Some (EFile (CImage img)) /\
    convert_rgba img = Some cimg /\
    font_size (width cimg) = Some n /\
    path_lookup (fs (fst (create_dev_icon Samples.root Samples.src16 Samples.dest16
                            Samples.w_rgba))) Samples.dest16 = Some (EFile (CImage out)) /\
    forall x y,
      mask (selected_font Samples.w_rgba n) "DEV"
        (x - fst (text_position (width cimg) (height cimg) "DEV"
                   (selected_font Samples.w_rgba n)))
        (y - snd (text_position (width cimg) (height cimg) "DEV"
                   (selected_font Samples.w_rgba n)))
        = 255 ->
      im_px out x y = [255; 255; 255; 255].
Proof.
  assert (E : snd (create_dev_icon Samples.root Samples.src16 Samples.dest16
                     Samples.w_rgba) = Ret tt) by (vm_compute; reflexivity).
  split; [exact E|].
  apply (X_glyph_pixels_white Samples.root Samples.src16 Samples.dest16 Samples.w_rgba).
  rewrite <- E. apply surjective_pairing.
Defined.

(** X9: a fully transparent source pixel inside the overlay triangle that
    the label does not touch is written as exactly (220, 20, 60, 200). *)
Theorem X_transparent_gets_overlay (root src dest : path) (w w' : world)
  (H : create_dev_icon root src dest w = (w', Ret tt)) :
  exists img cimg t n out,
    path_lookup (fs w) src = Some (EFile (CImage img)) /\
    convert_rgba img = Some cimg /\
    triangle_size (width cimg) = Some t /\
    font_size (width cimg) = Some n /\
    path_lookup (fs w') dest = Some (EFile (CImage out)) /\
    forall x y, 0 <= x < width cimg -> 0 <= y < height cimg ->
      (width cimg - x) + (height cimg - y) <= t ->
      mask (selected_font w n) "DEV"
        (x - fst (text_position (width cimg) (height cimg) "DEV" (selected_font w n)))
        (y - snd (text_position (width cimg) (height cimg) "DEV" (selected_font w n)))
        = 0 ->
      alpha (px cimg x y) = 0 ->
      im_px out x y = [220; 20; 60; 200].
Proof.
  apply Runtime.create_dev_icon_Ret_inv in H
    as (img & cimg & t & n & Hsrc & Hconv & Ht & Hn & Hne & Hfs).
  exists img, cimg, t, n, (to_saved (dev_image cimg t (selected_font w n))).
  rewrite Hfs, Runtime.path_lookup_insert_eq by exact Hne.
  repeat split; try assumption.
  intros x y Hx Hy Hin Hm Ha. cbn [im_px to_saved].
  rewrite (Pixels.dev_image_transparent cimg t (selected_font w n) x y Hx Hy Hin Hm Ha).
  reflexivity.
Qed.

(** On a fully transparent source, at the corner pixel (15, 15): inside
    the triangle, outside the text box of the label. *)
Lemma X_transparent_gets_overlay_witness :
  snd (create_dev_icon Samples.root Samples.src16 Samples.dest16 Samples.w_clear) = Ret tt /\
  exists out,
    path_lookup (fs (fst (create_dev_icon Samples.root Samples.src16 Samples.dest16
                            Samples.w_clear))) Samples.dest16 = Some (EFile (CImage out)) /\
    im_px out 15 15 = [220; 20; 60; 200].
Proof.
  assert (E : snd (create_dev_icon Samples.root Samples.src16 Samples.dest16
                     Samples.w_clear) = Ret tt) by (vm_compute; reflexivity).
  assert (Hr : create_dev_icon Samples.root Samples.src16 Samples.dest16 Samples.w_clear =
               (fst (create_dev_icon Samples.root Samples.src16 Samples.dest16
                       Samples.w_clear), Ret tt))
    by (rewrite <- E; apply surjective_pairing).
  split; [exact E|].
  destruct (X_transparent_gets_overlay _ _ _ _ _ Hr)
    as (img & cimg & t & n & out & Hsrc & Hconv & Ht & Hn & Hout & Hall).
  exists out. split; [exact Hout|].
  assert (Himg : img = Samples.solid 16 Samples.clear).
  { assert (Es : path_lookup (fs Samples.w_clear) Samples.src16 =
                 Some (EFile (CImage (Samples.solid 16 Samples.clear))))
      by (vm_compute; reflexivity).
    rewrite Es in Hsrc. congruence. }
  subst img.
  vm_compute in Hconv. injection Hconv as <-.
  vm_compute in Ht. injection Ht as <-.
  vm_compute in Hn. injection Hn as <-.
  apply Hall.
  - vm_compute. split; congruence.
  - vm_compute. split; congruence.
  - vm_compute. congruence.
  - vm_compute. reflexivity.
  - vm_compute. reflexivity.
Defined.

(** X10: running the script a second time leaves the files as the first
    run left them: every output is rewritten with the same content, and
    nothing else is written. *)
Theorem X_rerun_same_files (root : path) (w : world) :
  fs (fst (run_script root (fst (run_script root w)))) = fs (fst (run_script root w)).
Proof.
  destruct (Rerun.run_files_eq root w) as [E1 D1].
  destruct (Rerun.run_files_eq root (fst (run_script root w))) as [E2 D2].
  rewrite E2, D1, E1. apply Rerun.run_files_idem.
Qed.

Lemma X_run_writes_only_witness :
  path_lookup (fs Samples.w_missing48) (src_dir Samples.root) = Some EDir /\
  path_lookup (fs Samples.w_missing48) (dest_dir Samples.root) = None /\
  path_lookup (fs (fst (run_script Samples.root Samples.w_missing48)))
    (dest_dir Samples.root) = Some EDir.
Proof.
  assert (Hs : path_lookup (fs Samples.w_missing48) (src_dir Samples.root) = Some EDir)
    by (vm_compute; reflexivity).
  assert (Hd : path_lookup (fs Samples.w_missing48) (dest_dir Samples.root) = None)
    by (vm_compute; reflexivity).
  split; [exact Hs|]. split; [exact Hd|].
  exact (proj2 (X_run_writes_only Samples.root Samples.w_missing48) Hs (or_introl Hd)).
Defined.
